(** * Gifts-TG-Bot: target monitoring and purchase execution engine

    A shallow embedding of the core of the bot
    ([services/balance.py], [services/buy_userbot.py],
    [services/gifts_userbot.py], [services/gifts_manager.py] and the
    worker part of [main.py]) together with the properties that the
    design document states about it.

    Modelling conventions.
    - Python [int] is [Z]; [None] is [None]; a [str] is a [string].
    - [config.json] is the field [disk] of the state.  Every
      [load_config]/[get_valid_config] yields a fresh copy of it and
      [save_config] overwrites it, so two functions that each loaded
      the file hold independent copies.
    - The Telegram platform is an oracle ([World]): the k-th call of a
      remote method returns what the oracle says for index k.
    - File input/output of [config.json] and the Bot API calls used for
      operator notifications are taken not to raise.
    - [asyncio.sleep] and logging have no effect on the state and are
      left out. *)

From Stdlib Require Import ZArith Ascii String List Bool Sorted Permutation Lia.
From stdpp Require Import base list gmap.
Import ListNotations.
Local Open Scope string_scope.
Local Open Scope list_scope.
Local Open Scope Z_scope.

(** ** Configuration ([services/config.py]) *)

(** What the key "GIFT_ID" of a target holds, as [update_target_cache]
    tells the cases apart. *)
Inductive GiftIdField :=
| GidFalsy                  (* None, the empty str or 0: [not gift_id] *)
| GidBadStr                 (* a non-empty str that [int()] rejects *)
| GidInt (z : Z).           (* a non-zero int, or a str that [int()] reads as z *)

Record Target := mkTarget {
  GIFT_ID : GiftIdField;
  GIFT_NAME : string;
  MAX_PRICE : Z;
  ENABLED : bool
}.

Record Userbot := mkUserbot {
  API_ID : option Z;
  API_HASH : option string;
  PHONE : option string;
  USER_ID_cfg : option Z;       (* USERBOT.USER_ID *)
  USERNAME : option string;
  FIRST_NAME : option string;
  BALANCE : Z;
  UB_ENABLED : bool;            (* USERBOT.ENABLED *)
  UPDATE_INTERVAL : Z
}.

Record Config := mkConfig {
  ACTIVE : bool;
  LAST_MENU_MESSAGE_ID : option Z;
  TARGET_USER_ID : option Z;
  TARGET_CHAT_ID : option string;
  TARGET_TYPE : option string;
  TARGETS : list Target;
  USERBOT : Userbot
}.

Definition default_config : Config :=
  mkConfig false None None None None []
    (mkUserbot None None None None None None 0 true 45).

(** Python truthiness of an optional int and of an optional str. *)
Definition truthy_int (x : option Z) : bool :=
  match x with Some z => negb (z =? 0) | None => false end.

Definition truthy_str (x : option string) : bool :=
  match x with Some s => negb (String.eqb s "") | None => false end.

(** [config["USERBOT"]["BALANCE"] = b] *)
Definition set_BALANCE (b : Z) (c : Config) : Config :=
  let u := USERBOT c in
  mkConfig (ACTIVE c) (LAST_MENU_MESSAGE_ID c) (TARGET_USER_ID c)
    (TARGET_CHAT_ID c) (TARGET_TYPE c) (TARGETS c)
    (mkUserbot (API_ID u) (API_HASH u) (PHONE u) (USER_ID_cfg u)
       (USERNAME u) (FIRST_NAME u) b (UB_ENABLED u) (UPDATE_INTERVAL u)).

(** [config["USERBOT"]["ENABLED"] = e] *)
Definition set_UB_ENABLED (e : bool) (c : Config) : Config :=
  let u := USERBOT c in
  mkConfig (ACTIVE c) (LAST_MENU_MESSAGE_ID c) (TARGET_USER_ID c)
    (TARGET_CHAT_ID c) (TARGET_TYPE c) (TARGETS c)
    (mkUserbot (API_ID u) (API_HASH u) (PHONE u) (USER_ID_cfg u)
       (USERNAME u) (FIRST_NAME u) (BALANCE u) e (UPDATE_INTERVAL u)).

(** [config["ACTIVE"] = a] *)
Definition set_ACTIVE (a : bool) (c : Config) : Config :=
  mkConfig a (LAST_MENU_MESSAGE_ID c) (TARGET_USER_ID c)
    (TARGET_CHAT_ID c) (TARGET_TYPE c) (TARGETS c) (USERBOT c).

(** [[t for t in targets if t.get("ENABLED", True)]] *)
Definition enabled_targets (c : Config) : list Target :=
  List.filter ENABLED (TARGETS c).

(** ** Listings ([services/gifts_userbot.py]) *)

(** The attributes of a Pyrogram gift object that [normalize_resale_gift]
    reads.  An empty string stands for a missing or empty attribute
    (both are falsy for every test the core makes). *)
Record RawGift := mkRawGift {
  collectible_id : Z;
  raw_gift_id : option Z;
  last_resale_star_count : option Z;
  raw_name : string;
  raw_link : string;
  raw_attributes : list string;
  raw_resale_ton_only : bool
}.

Record GiftData := mkGiftData {
  gd_id : Z;
  gd_gift_id : option Z;
  price : Z;
  name : string;
  link : string;
  attributes : list string;
  resale_ton_only : bool;
  available_for_stars : bool
}.

Definition normalize_resale_gift (gift : RawGift) : GiftData :=
  let star_price := last_resale_star_count gift in
  mkGiftData (collectible_id gift) (raw_gift_id gift)
    (match star_price with Some p => p | None => 0 end)   (* star_price or 0 *)
    (raw_name gift) (raw_link gift) (raw_attributes gift)
    (raw_resale_ton_only gift)
    (match star_price with
     | Some _ => negb (raw_resale_ton_only gift)
     | None => false
     end).

(** What the asynchronous generator [search_gifts_for_resale] yields:
    gifts one by one, ending normally or by raising. *)
Inductive GiftStream :=
| StreamEnd
| StreamRaise
| StreamYield (gift : RawGift) (rest : GiftStream).

(** ** The platform and the program state *)

Inductive Recipient :=
| ToUser (uid : Z)
| ToChat (username : string).

Inductive StarsResult :=
| StarsOk (b : Z)       (* the balance, after [int(float(...))] *)
| StarsRPCError
| StarsOtherError.      (* any other exception, or a value [float()] rejects *)

Inductive SendResult :=
| SendOk
| SendFloodWait (secs : Z)
| SendBadRequest (msg : string)
| SendForbidden
| SendAuthKeyUnregistered
| SendRPCError
| SendException.

Record World := mkWorld {
  w_get_me : nat -> bool;                 (* k-th [client.get_me()] returns *)
  w_stars : nat -> StarsResult;           (* k-th [client.get_stars_balance()] *)
  w_send : nat -> string -> Recipient -> Z -> SendResult;
                                          (* k-th [client.send_resold_gift(...)] *)
  w_search : nat -> Z -> GiftStream       (* k-th [client.search_gifts_for_resale(gift_id)] *)
}.

(** The module globals of [services/userbot.py]. *)
Record Session := mkSession {
  client_present : bool;        (* [_userbot_client is not None] *)
  userbot_started : bool;       (* [_userbot_started] *)
  current_user_id : option Z;   (* [_current_user_id] *)
  is_connected : bool           (* [_userbot_client.is_connected] *)
}.

Inductive Message :=
| MsgSenderInactive
| MsgRecipientMissing
| MsgGiftSent (target_name gift_name : string) (gift_price limit : Z) (gift_link : string)
| MsgInsufficient (balance min_price : Z).

Inductive Event :=
| EvSend (gift_link : string) (new_owner : Recipient) (star_count : Z)
| EvBotMessage (m : Message)
| EvMainMenu.

Record TargetInfo := mkTargetInfo {
  ti_gift_id : Z;
  ti_gift_name : string;
  ti_max_price : Z
}.

(** A value of [targets_cache]; the time stamp "last_update" is real
    time, is read by no decision of the core and is left out. *)
Record CacheEntry := mkCacheEntry {
  gift_data : option GiftData;
  target_info : TargetInfo
}.

(** A Python dict keyed by target index, in insertion order. *)
Definition Cache := list (nat * CacheEntry).

Record St := mkSt {
  disk : Config;
  targets_cache : Cache;
  session : Session;
  n_get_me : nat;
  n_stars : nat;
  n_send : nat;
  n_search : nat;
  trace : list Event
}.

(** ** A state monad for the asynchronous functions *)

Definition M (A : Type) : Type := St -> A * St.

Definition ret {A} (a : A) : M A := fun st => (a, st).

Definition bind {A B} (c : M A) (k : A -> M B) : M B :=
  fun st => let (a, st') := c st in k a st'.

Notation "'let*' x ':=' c 'in' k" := (bind c (fun x => k))
  (at level 10, x binder, c at level 100, k at level 200).
Notation "c ';;;' k" := (bind c (fun _ => k))
  (at level 100, k at level 200, right associativity).

Definition load_config : M Config := fun st => (disk st, st).

(** Configurations are typed as [simple_validate_config] leaves them, so
    validation changes nothing; ([get_valid_config] never writes the file
    back either: it compares the validated dict with itself). *)
Definition get_valid_config : M Config := load_config.

Definition save_config (c : Config) : M unit := fun st =>
  (tt, mkSt c (targets_cache st) (session st) (n_get_me st) (n_stars st)
         (n_send st) (n_search st) (trace st)).

Definition emit (e : Event) : M unit := fun st =>
  (tt, mkSt (disk st) (targets_cache st) (session st) (n_get_me st) (n_stars st)
         (n_send st) (n_search st) (trace st ++ [e])).

Definition set_session (s : Session) : M unit := fun st =>
  (tt, mkSt (disk st) (targets_cache st) s (n_get_me st) (n_stars st)
         (n_send st) (n_search st) (trace st)).

Definition set_cache (c : Cache) : M unit := fun st =>
  (tt, mkSt (disk st) c (session st) (n_get_me st) (n_stars st)
         (n_send st) (n_search st) (trace st)).

Section Platform.

Variable w : World.

Definition call_get_me : M bool := fun st =>
  (w_get_me w (n_get_me st),
   mkSt (disk st) (targets_cache st) (session st) (S (n_get_me st)) (n_stars st)
     (n_send st) (n_search st) (trace st)).

Definition call_get_stars_balance : M StarsResult := fun st =>
  (w_stars w (n_stars st),
   mkSt (disk st) (targets_cache st) (session st) (n_get_me st) (S (n_stars st))
     (n_send st) (n_search st) (trace st)).

Definition call_send_resold_gift (gift_link : string) (new_owner : Recipient)
    (star_count : Z) : M SendResult := fun st =>
  (w_send w (n_send st) gift_link new_owner star_count,
   mkSt (disk st) (targets_cache st) (session st) (n_get_me st) (n_stars st)
     (S (n_send st)) (n_search st) (trace st ++ [EvSend gift_link new_owner star_count])).

Definition call_search_gifts_for_resale (gift_id : Z) : M GiftStream := fun st =>
  (w_search w (n_search st) gift_id,
   mkSt (disk st) (targets_cache st) (session st) (n_get_me st) (n_stars st)
     (n_send st) (S (n_search st)) (trace st)).

(** ** The sender session ([services/userbot.py]) *)

Definition session_active (s : Session) (user_id : Z) : bool :=
  client_present s && userbot_started s
  && match current_user_id s with Some u => u =? user_id | None => false end
  && is_connected s.

Definition is_userbot_active (user_id : Z) : M bool := fun st =>
  (session_active (session st) user_id, st).

Definition _reset_userbot_state : M unit :=
  set_session (mkSession false false None false).

(** [true] when a ready client is returned, [false] for [None]. *)
Definition get_userbot_client (user_id : Z) : M bool :=
  let* active := is_userbot_active user_id in
  if negb active then ret false
  else
    let* me := call_get_me in
    if me then ret true
    else (_reset_userbot_state ;;; ret false).

(** ** The balance oracle ([services/balance.py]) *)

(** [None] when the function raises [RuntimeError]; the value is the
    balance after the callers' [int(...)].  The test of
    [client.is_connected] that follows [get_userbot_client] cannot fail:
    a client is only returned for an active session, which is a
    connected one. *)
Definition get_sender_stars_balance (user_id : Z) : M (option Z) :=
  let* active := is_userbot_active user_id in
  if negb active then ret None
  else
    let* client := get_userbot_client user_id in
    if negb client then ret None
    else
      let* r := call_get_stars_balance in
      match r with
      | StarsOk b => ret (Some b)
      | StarsRPCError => ret None
      | StarsOtherError => (call_get_me ;;; ret None)   (* the diagnostic [get_me] *)
      end.

Definition persist_zero (config : Config) : M Z :=
  save_config (set_BALANCE 0 config) ;;; ret 0.

(** The part of [refresh_balance] after the user id is known. *)
Definition refresh_balance_for (config : Config) (user_id : Z) : M Z :=
  let userbot_data := USERBOT config in
  let has_session := truthy_int (API_ID userbot_data)
                     && truthy_str (API_HASH userbot_data)
                     && truthy_str (PHONE userbot_data) in
  if negb has_session then persist_zero config
  else
    let* active := is_userbot_active user_id in
    if negb active then persist_zero config
    else
      let* b := get_sender_stars_balance user_id in
      match b with
      | Some balance_int =>
          save_config (set_BALANCE balance_int config) ;;; ret balance_int
      | None => persist_zero config
      end.

Definition refresh_balance (user_id : option Z) : M Z :=
  let* config := load_config in
  match user_id with
  | Some u => refresh_balance_for config u
  | None =>
      match USER_ID_cfg (USERBOT config) with
      | Some u => if negb (u =? 0) then refresh_balance_for config u
                  else persist_zero config
      | None => persist_zero config
      end
  end.

Definition change_balance_userbot (delta : Z) : M Z :=
  let* config := load_config in
  let current := BALANCE (USERBOT config) in
  let new_balance := Z.max 0 (current + delta) in
  save_config (set_BALANCE new_balance config) ;;;
  ret new_balance.

Definition get_balance_from_config : M Z :=
  let* config := load_config in
  ret (BALANCE (USERBOT config)).

End Platform.

(** ** Searching the cheapest listing ([services/gifts_userbot.py]) *)

(** The body of the [async for] of [find_cheapest_gift_by_id]: the
    result, and the final value of the local counter [checked] (the
    number of listings taken from the generator). *)
Fixpoint scan_gifts (max_price : option Z) (gifts_generator : GiftStream)
    (checked : nat) : option GiftData * nat :=
  match gifts_generator with
  | StreamEnd => (None, checked)
  | StreamRaise => (None, checked)               (* [except Exception] *)
  | StreamYield gift rest =>
      let checked := S checked in
      let gift_data := normalize_resale_gift gift in
      if available_for_stars gift_data && (price gift_data >? 0) then
        match max_price with
        | None => (Some gift_data, checked)
        | Some limit =>
            if price gift_data <=? limit then (Some gift_data, checked)
            else (None, checked)
        end
      else scan_gifts max_price rest checked
  end.

Section Poller.

Variable w : World.

Definition find_cheapest_gift_by_id (user_id gift_id : Z) (max_price : option Z)
    : M (option GiftData) :=
  let* active := is_userbot_active user_id in
  if negb active then ret None
  else
    let* config := get_valid_config in
    if negb (UB_ENABLED (USERBOT config)) then ret None
    else
      let* client := get_userbot_client w user_id in
      if negb client then ret None
      else
        let* gifts_generator := call_search_gifts_for_resale w gift_id in
        ret (fst (scan_gifts max_price gifts_generator 0)).

(** ** The listing cache ([services/gifts_manager.py]) *)

(** [d[k] = v] on an insertion-ordered dict. *)
Fixpoint dict_set (k : nat) (v : CacheEntry) (d : Cache) : Cache :=
  match d with
  | [] => [(k, v)]
  | (k', v') :: d' =>
      if Nat.eqb k' k then (k, v) :: d' else (k', v') :: dict_set k v d'
  end.

Fixpoint dict_get (k : nat) (d : Cache) : option CacheEntry :=
  match d with
  | [] => None
  | (k', v') :: d' => if Nat.eqb k' k then Some v' else dict_get k d'
  end.

Definition update_target_cache (user_id : Z) (target_index : nat) (target : Target)
    : M (option GiftData) :=
  let max_price := MAX_PRICE target in
  let gift_name := GIFT_NAME target in
  match GIFT_ID target with
  | GidFalsy => ret None
  | GidBadStr => ret None                        (* [except ValueError] *)
  | GidInt gift_id =>
      let* gift_data := find_cheapest_gift_by_id user_id gift_id (Some max_price) in
      let* cache := (fun st => (targets_cache st, st)) in
      set_cache (dict_set target_index
                   (mkCacheEntry gift_data (mkTargetInfo gift_id gift_name max_price))
                   cache) ;;;
      ret gift_data
  end.

Definition clear_targets_cache : M unit := set_cache [].


(** [[(i, t) for i, t in enumerate(targets) if t.get("ENABLED", True)]] *)
Fixpoint enumerate_enabled (i : nat) (targets : list Target) : list (nat * Target) :=
  match targets with
  | [] => []
  | t :: ts =>
      if ENABLED t then (i, t) :: enumerate_enabled (S i) ts
      else enumerate_enabled (S i) ts
  end.

Fixpoint update_all (user_id : Z) (targets : list (nat * Target)) : M unit :=
  match targets with
  | [] => ret tt
  | (target_index, target) :: rest =>
      update_target_cache user_id target_index target ;;;
      update_all user_id rest
  end.

(** One iteration of the [while True] of [userbot_targets_updater]. *)
Definition targets_updater_cycle (user_id : Z) : M unit :=
  let* config := get_valid_config in
  if negb (ACTIVE config) then ret tt
  else update_all user_id (enumerate_enabled 0 (TARGETS config)).

End Poller.

(** A listing of the cache together with the target it was found for. *)
Record TargetGift := mkTargetGift {
  tg_gift : GiftData;
  target_index : nat;
  target_gift_id : Z;
  target_gift_name : string;
  target_max_price : Z
}.

Definition tg_price (g : TargetGift) : Z := price (tg_gift g).

(** [list.sort(key=price)] is stable. *)
Fixpoint insert_by_price (g : TargetGift) (l : list TargetGift) : list TargetGift :=
  match l with
  | [] => [g]
  | h :: t => if tg_price g <=? tg_price h then g :: l else h :: insert_by_price g t
  end.

Fixpoint sort_by_price (l : list TargetGift) : list TargetGift :=
  match l with
  | [] => []
  | g :: t => insert_by_price g (sort_by_price t)
  end.

Fixpoint available_of_cache (c : Cache) : list TargetGift :=
  match c with
  | [] => []
  | (target_index, cache_entry) :: rest =>
      match gift_data cache_entry with
      | Some gift_data =>
          let target_info := target_info cache_entry in
          mkTargetGift gift_data target_index (ti_gift_id target_info)
            (ti_gift_name target_info) (ti_max_price target_info)
          :: available_of_cache rest
      | None => available_of_cache rest
      end
  end.

Definition get_all_available_target_gifts : M (list TargetGift) := fun st =>
  (sort_by_price (available_of_cache (targets_cache st)), st).

(** ** Buying ([services/buy_userbot.py]) *)

Definition validate_gift_purchase (gift_data : TargetGift)
    (target_user_id : option Z) (target_chat_id : option string) (max_price : Z)
    : bool :=
  let g := tg_gift gift_data in
  if String.eqb (link g) "" || (price g =? 0) || String.eqb (name g) "" then false
  else if price g <=? 0 then false
  else if price g >? max_price then false
  else if negb (truthy_int target_user_id) && negb (truthy_str target_chat_id) then false
  else if truthy_int target_user_id && truthy_str target_chat_id then false
  else if negb (String.prefix "https://t.me/nft/" (link g)) then false
  else true.

(** [s.lstrip('@')] *)
Fixpoint lstrip_at (s : string) : string :=
  match s with
  | String c rest => if Ascii.eqb c "@"%char then lstrip_at rest else s
  | EmptyString => s
  end.

Definition recipient_of (target_user_id : option Z) (target_chat_id : option string)
    : option Recipient :=
  if truthy_int target_user_id && negb (truthy_str target_chat_id) then
    match target_user_id with Some u => Some (ToUser u) | None => None end
  else if truthy_str target_chat_id && negb (truthy_int target_user_id) then
    match target_chat_id with Some c => Some (ToChat (lstrip_at c)) | None => None end
  else None.

(** The three branches taken on the balance difference after a purchase
    call that returned. *)
Inductive Verdict := Success | SuccessWithWarning | Failure.

Definition classify_delta (balance_diff expected_price : Z) : Verdict :=
  if Z.abs (balance_diff - expected_price) <=? 1 then Success
  else if balance_diff >? 0 then SuccessWithWarning
  else Failure.

Section Executor.

Variable w : World.
Variable USER_ID : Z.

(** The [for attempt in range(1, retries + 1)] loop; [attempts] counts
    the attempts that are left. *)
Fixpoint purchase_attempts (attempts : nat) (session_user_id : Z)
    (gift_link : string) (recipient : Recipient) (expected_price : Z)
    (cached_balance balance_before : Z) : M bool :=
  match attempts with
  | O => ret false
  | S remaining =>
      let next := purchase_attempts remaining session_user_id gift_link recipient
                    expected_price cached_balance balance_before in
      let* result := call_send_resold_gift w gift_link recipient expected_price in
      match result with
      | SendOk =>
          let* after := get_sender_stars_balance w session_user_id in
          match after with
          | None => next
          | Some balance_after =>
              let balance_diff := balance_before - balance_after in
              match classify_delta balance_diff expected_price with
              | Success | SuccessWithWarning =>
                  let delta := balance_after - cached_balance in
                  change_balance_userbot delta ;;; ret true
              | Failure => next
              end
          end
      | SendFloodWait _ => next
      | SendBadRequest _ => ret false
      | SendForbidden => ret false
      | SendAuthKeyUnregistered => ret false
      | SendRPCError => next
      | SendException => next
      end
  end.

Definition buy_resold_gift_userbot (session_user_id : Z) (gift_link : string)
    (target_user_id : option Z) (target_chat_id : option string)
    (expected_price : Z) (retries : nat) : M bool :=
  let* config := get_valid_config in
  let cached_balance := BALANCE (USERBOT config) in
  if cached_balance <? expected_price then
    save_config (set_UB_ENABLED false config) ;;; ret false
  else
    let* client := get_userbot_client w session_user_id in
    if negb client then ret false
    else
      match recipient_of target_user_id target_chat_id with
      | None => ret false
      | Some recipient =>
          let* before := get_sender_stars_balance w session_user_id in
          match before with
          | None => ret false
          | Some balance_before =>
              purchase_attempts retries session_user_id gift_link recipient
                expected_price cached_balance balance_before
          end
      end.

(** ** The purchase worker ([main.py]) *)

Inductive LoopCtl := LoopBreak | LoopContinue.

(** The checks made on a candidate before the purchase is tried. *)
Definition candidate_ok (config : Config) (target_gift : TargetGift) : bool :=
  negb (String.eqb (link (tg_gift target_gift)) "")
  && negb (tg_price target_gift >? target_max_price target_gift)
  && validate_gift_purchase target_gift (TARGET_USER_ID config)
       (TARGET_CHAT_ID config) (target_max_price target_gift).

(** The [for ... in enumerate(available_target_gifts, 1)] loop; the
    result is [purchased_any]. *)
Fixpoint scan_candidates (config : Config) (gifts : list TargetGift) : M bool :=
  match gifts with
  | [] => ret false
  | target_gift :: rest =>
      let g := tg_gift target_gift in
      if String.eqb (link g) "" then scan_candidates config rest
      else if price g >? target_max_price target_gift then scan_candidates config rest
      else if negb (validate_gift_purchase target_gift (TARGET_USER_ID config)
                      (TARGET_CHAT_ID config) (target_max_price target_gift))
      then scan_candidates config rest
      else
        let* success := buy_resold_gift_userbot USER_ID (link g)
                          (TARGET_USER_ID config) (TARGET_CHAT_ID config)
                          (price g) 3 in
        if success then
          emit (EvBotMessage (MsgGiftSent (target_gift_name target_gift) (name g)
                                (price g) (target_max_price target_gift) (link g))) ;;;
          emit EvMainMenu ;;;
          refresh_balance w (Some USER_ID) ;;;
          ret true
        else scan_candidates config rest
  end.

(** [min(gift.get("price", 0) for gift in available_target_gifts)] on a
    non-empty list. *)
Definition min_price_of (first : TargetGift) (others : list TargetGift) : Z :=
  fold_left Z.min (map tg_price others) (tg_price first).

Definition hard_stop (config : Config) (m : Message) : M LoopCtl :=
  save_config (set_ACTIVE false config) ;;;
  emit (EvBotMessage m) ;;;
  emit EvMainMenu ;;;
  ret LoopBreak.

(** One iteration of the [while True] of [gift_purchase_worker].
    [refresh_balance] can only raise where the configuration file cannot
    be read or written, which is taken not to happen, so the fallback to
    [get_balance_from_config] is not reached.  [config] is the copy
    loaded at the top of the cycle: a hard stop saves that copy, with
    ACTIVE set to false, over whatever was saved in between. *)
Definition worker_cycle : M LoopCtl :=
  let* config := get_valid_config in
  if negb (ACTIVE config) then ret LoopBreak
  else
    let* active := is_userbot_active USER_ID in
    if negb active then hard_stop config MsgSenderInactive
    else
      match enabled_targets config with
      | [] => ret LoopContinue
      | _ :: _ =>
          if negb (truthy_int (TARGET_USER_ID config))
             && negb (truthy_str (TARGET_CHAT_ID config))
          then hard_stop config MsgRecipientMissing
          else
            let* available_target_gifts := get_all_available_target_gifts in
            match available_target_gifts with
            | [] => ret LoopContinue
            | first :: others =>
                let* purchased_any := scan_candidates config available_target_gifts in
                if purchased_any then ret LoopContinue
                else
                  let* current_balance := refresh_balance w (Some USER_ID) in
                  let min_price := min_price_of first others in
                  if current_balance <? min_price then
                    hard_stop config (MsgInsufficient current_balance min_price)
                  else ret LoopContinue
            end
      end.

(** The [while True] loop, cut after [fuel] iterations: [true] when the
    worker has returned, [false] when it is still looping. *)
Fixpoint worker_loop (fuel : nat) : M bool :=
  match fuel with
  | O => ret false
  | S fuel' =>
      let* ctl := worker_cycle in
      match ctl with
      | LoopBreak => ret true
      | LoopContinue => worker_loop fuel'
      end
  end.


End Executor.

(** ** The worker supervisor ([main.py])

    The supervisor is modelled at the points where no call of
    [start_workers] or [stop_workers] is in progress: each call, and
    each completion of a task, is one step.  A task is named by its
    identity. *)

Module Supervisor.

Record Sup := mkSup {
  _running_tasks : gset nat;    (* the tracked set *)
  pending : gset nat;           (* tasks of the event loop that are not done *)
  next_task : nat               (* identity of the next task created *)
}.

Definition initial : Sup := mkSup ∅ ∅ 0.

Definition are_workers_running (s : Sup) : bool :=
  (0 <? size (_running_tasks s))%nat.

(** The callback added to both tasks by [start_workers]. *)
Definition task_done_callback (task : nat) (s : Sup) : Sup :=
  mkSup (_running_tasks s ∖ {[task]}) (pending s) (next_task s).

(** A task that is not done completes (it returns, raises, or is
    cancelled), and the event loop runs its done callback. *)
Definition task_ends (task : nat) (s : Sup) : Sup :=
  if decide (task ∈ pending s) then
    task_done_callback task (mkSup (_running_tasks s) (pending s ∖ {[task]}) (next_task s))
  else s.

(** Every tracked task that is not done is cancelled and awaited (the
    callbacks run as the tasks complete), then the set is cleared. *)
Definition stop_workers (s : Sup) : Sup :=
  if are_workers_running s then
    mkSup ∅ (pending s ∖ _running_tasks s) (next_task s)
  else s.

(** The four start conditions of [start_workers]. *)
Definition workers_ready (USER_ID : Z) (config : Config) (sess : Session) : bool :=
  ACTIVE config
  && session_active sess USER_ID
  && (truthy_int (TARGET_USER_ID config) || truthy_str (TARGET_CHAT_ID config))
  && match enabled_targets config with [] => false | _ :: _ => true end.

Definition start_workers (USER_ID : Z) (config : Config) (sess : Session) (s : Sup)
    : bool * Sup :=
  if negb (ACTIVE config) then (false, s)
  else if negb (session_active sess USER_ID) then (false, s)
  else if negb (truthy_int (TARGET_USER_ID config))
          && negb (truthy_str (TARGET_CHAT_ID config)) then (false, s)
  else
    match enabled_targets config with
    | [] => (false, s)
    | _ :: _ =>
        let s1 := if are_workers_running s then stop_workers s else s in
        let purchase_task := next_task s1 in
        let targets_task := S (next_task s1) in
        (true,
         mkSup (_running_tasks s1 ∪ {[purchase_task]} ∪ {[targets_task]})
           (pending s1 ∪ {[purchase_task]} ∪ {[targets_task]})
           (S (S (next_task s1))))
    end.

Inductive Step :=
| CallStart (USER_ID : Z) (config : Config) (sess : Session)
| CallStop
| TaskEnds (task : nat).

Definition step (s : Sup) (e : Step) : Sup :=
  match e with
  | CallStart USER_ID config sess => snd (start_workers USER_ID config sess s)
  | CallStop => stop_workers s
  | TaskEnds task => task_ends task s
  end.

Definition run_steps (steps : list Step) : Sup := fold_left step steps initial.

(** The tracked tasks are not done, and there are at most two. *)
Definition tracked_ok (s : Sup) : Prop :=
  _running_tasks s ⊆ pending s /\ (size (_running_tasks s) <= 2)%nat.

End Supervisor.

(** * Vocabulary of the properties, and examples *)

(** Unfolding of the monad and of the primitive state operations. *)
Ltac run :=
  unfold bind, ret, load_config, get_valid_config, save_config, emit,
    set_session, set_cache, is_userbot_active; simpl.

(** Case analysis on the first closed test the goal branches on. *)
Ltac step :=
  match goal with
  | H : ?c = _ |- context [if negb ?c then _ else _] => rewrite H; simpl
  | H : ?c = _ |- context [if ?c then _ else _] => rewrite H; simpl
  | H : ?c = _ |- context [match ?c with _ => _ end] => rewrite H; simpl
  | |- context [if negb ?c then _ else _] => destruct c eqn:?; simpl
  | |- context [if ?c then _ else _] => destruct c eqn:?; simpl
  | |- context [match ?c with _ => _ end] => destruct c eqn:?; simpl
  end.

(** ** Concrete platform, configuration and state used in examples *)

Module Examples.

Definition owner : Z := 7.

Definition nft (s : string) : string := ("https://t.me/nft/" ++ s)%string.

(** A platform on which every call succeeds and the balance never moves. *)
Definition still_world (b : Z) : World :=
  mkWorld (fun _ => true) (fun _ => StarsOk b) (fun _ _ _ _ => SendOk)
    (fun _ _ => StreamEnd).

Definition sender (balance : Z) : Userbot :=
  mkUserbot (Some 1) (Some "hash") (Some "+10000000000") (Some 7001)
    (Some "sender") (Some "Sender") balance true 45.

Definition config_of (targets : list Target) (balance : Z) : Config :=
  mkConfig true None (Some 42) None None targets (sender balance).

Definition live_session : Session := mkSession true true (Some owner) true.

Definition state_of (c : Config) (cache : Cache) : St :=
  mkSt c cache live_session 0 0 0 0 [].

Definition listing (n : string) (p : Z) : GiftData :=
  mkGiftData 1 (Some 5) p n (nft n) [] false true.

Definition entry (n : string) (p limit : Z) : CacheEntry :=
  mkCacheEntry (Some (listing n p)) (mkTargetInfo 5 "gift" limit).

End Examples.

(** ** Reconciliation, in the words of the design document *)

(** The user id [refresh_balance] works with: its argument, or else a
    truthy USERBOT.USER_ID of the configuration. *)
Definition effective_user_id (user_id : option Z) (c : Config) : option Z :=
  match user_id with
  | Some u => Some u
  | None => if truthy_int (USER_ID_cfg (USERBOT c)) then USER_ID_cfg (USERBOT c)
            else None
  end.

Definition fully_configured (user_id : option Z) (c : Config) : bool :=
  truthy_int (API_ID (USERBOT c)) && truthy_str (API_HASH (USERBOT c))
  && truthy_str (PHONE (USERBOT c))
  && match effective_user_id user_id c with Some _ => true | None => false end.

Definition currently_active (user_id : option Z) (st : St) : bool :=
  match effective_user_id user_id (disk st) with
  | Some u => session_active (session st) u
  | None => false
  end.

(** The reconciled value in the words of the design document: the
    fetched balance, and 0 when the session is not fully configured or
    not active (or when the fetch raises). *)
Definition reconciled_value (w : World) (user_id : option Z) (st : St) : Z :=
  if fully_configured user_id (disk st) && currently_active user_id st then
    match effective_user_id user_id (disk st) with
    | Some u =>
        match fst (get_sender_stars_balance w u st) with
        | Some b => b
        | None => 0
        end
    | None => 0
    end
  else 0.

(** ** Eligible listings and the price ceiling *)

Arguments normalize_resale_gift : simpl never.

(** Eligible: sellable for stars, at a price above zero. *)
Definition eligible (g : GiftData) : bool :=
  available_for_stars g && (price g >? 0).

(** The listings a stream delivers before it ends or raises. *)
Fixpoint stream_listings (s : GiftStream) : list GiftData :=
  match s with
  | StreamEnd | StreamRaise => []
  | StreamYield gift rest => normalize_resale_gift gift :: stream_listings rest
  end.

(** The first eligible listing of a stream with its position (counted
    from 1), if the stream delivers one. *)
Fixpoint first_eligible (s : GiftStream) (seen : nat) : option (GiftData * nat) :=
  match s with
  | StreamEnd | StreamRaise => None
  | StreamYield gift rest =>
      if eligible (normalize_resale_gift gift)
      then Some (normalize_resale_gift gift, S seen)
      else first_eligible rest (S seen)
  end.

(** The search is ordered by price: eligible listings come in
    non-decreasing price order. *)
Definition price_ascending (s : GiftStream) : Prop :=
  StronglySorted Z.le (map price (List.filter eligible (stream_listings s))).

(** The price ceiling holds for an entry, and for a whole cache. *)
Definition entry_ok (e : CacheEntry) : Prop :=
  forall g, gift_data e = Some g -> price g <= ti_max_price (target_info e).

Definition ceiling_ok (c : Cache) : Prop :=
  Forall (fun kv => entry_ok (snd kv)) c.

(** The operations that write [targets_cache]. *)
Inductive CacheWrite :=
| WriteUpdate (user_id : Z) (target_index : nat) (target : Target)
| WriteSweep (user_id : Z)          (* one cycle of [userbot_targets_updater] *)
| WriteClear.

Definition cache_write (w : World) (op : CacheWrite) (st : St) : St :=
  match op with
  | WriteUpdate user_id target_index target =>
      snd (update_target_cache w user_id target_index target st)
  | WriteSweep user_id => snd (targets_updater_cycle w user_id st)
  | WriteClear => snd (clear_targets_cache st)
  end.

Definition cache_writes (w : World) (ops : list CacheWrite) (st : St) : St :=
  fold_left (fun s op => cache_write w op s) ops st.

Module PollerExamples.
Import Examples.

Definition raw (n : string) (stars : option Z) (ton_only : bool) : RawGift :=
  mkRawGift 1 (Some 5) stars n (nft n) [] ton_only.

(** A price-ordered search result: a listing sold for TON only, then
    listings for 2000 and 2500 stars. *)
Definition offers : GiftStream :=
  StreamYield (raw "Toy-1" (Some 1500) true)
    (StreamYield (raw "Toy-2" (Some 2000) false)
       (StreamYield (raw "Toy-3" (Some 2500) false) StreamEnd)).

Definition market : World :=
  mkWorld (fun _ => true) (fun _ => StarsOk 5000) (fun _ _ _ _ => SendOk)
    (fun _ _ => offers).

Definition tight : Target := mkTarget (GidInt 5) "gift" 1000 true.
Definition wide : Target := mkTarget (GidInt 5) "gift" 3000 true.

Definition start : St :=
  state_of (config_of [tight; wide] 5000) [(0%nat, entry "Toy-0" 900 1000)].

End PollerExamples.

(** ** Events of a run *)

Definition is_send (e : Event) : bool :=
  match e with EvSend _ _ _ => true | _ => false end.

Definition is_gift_sent (e : Event) : bool :=
  match e with EvBotMessage (MsgGiftSent _ _ _ _ _) => true | _ => false end.

(** The number of purchase calls ([send_resold_gift]) in a trace, and
    the number of success notifications. *)
Definition purchase_calls (t : list Event) : nat := length (List.filter is_send t).

Definition success_notifications (t : list Event) : nat :=
  length (List.filter is_gift_sent t).

(** The events a computation added to the trace. *)
Definition events_of (before after : St) : list Event :=
  skipn (length (trace before)) (trace after).

(** The candidates of a cycle: the listings of the cache, by price. *)
Definition candidates (st : St) : list TargetGift :=
  sort_by_price (available_of_cache (targets_cache st)).

Definition affordable (st : St) : list TargetGift :=
  List.filter (candidate_ok (disk st)) (candidates st).

Module ExecutorExamples.
Import Examples.

(** Two affordable candidates, at 150 and at 200 stars. *)
Definition two_offers : Cache :=
  [(0%nat, entry "Toy-1" 200 1000); (1%nat, entry "Toy-2" 150 1000)].

Definition ready (balance : Z) : St :=
  state_of (config_of [mkTarget (GidInt 5) "gift" 1000 true] balance) two_offers.

(** The cheaper listing is gone when the purchase is tried; the second
    purchase goes through and 200 stars leave the balance. *)
Definition first_gone : World :=
  mkWorld (fun _ => true)
    (fun k => match k with 0%nat | 1%nat => StarsOk 1000 | _ => StarsOk 800 end)
    (fun k _ _ _ => match k with 0%nat => SendBadRequest "GIFT_NOT_FOUND" | _ => SendOk end)
    (fun _ _ => StreamEnd).

(** A configuration whose only target is disabled. *)
Definition idle : St :=
  state_of (config_of [mkTarget (GidInt 5) "gift" 1000 false] 1000) two_offers.

End ExecutorExamples.

(** All events of a list are purchase calls. *)
Definition only_sends (t : list Event) : Prop := forallb is_send t = true.

(** Once a success notification is in the trace, neither a purchase
    call nor another success notification follows it. *)
Fixpoint stops_after_success (t : list Event) : bool :=
  match t with
  | [] => true
  | e :: rest =>
      if is_gift_sent e
      then forallb (fun e' => negb (is_send e') && negb (is_gift_sent e')) rest
      else stops_after_success rest
  end.

(** The events of one pass over the candidates: purchase calls, closed
    by the success notification and the menu when a purchase succeeded. *)
Definition scan_shape (purchased : bool) (t : list Event) : Prop :=
  if purchased then
    exists pre m, t = pre ++ [EvBotMessage m; EvMainMenu]
                  /\ only_sends pre /\ is_gift_sent (EvBotMessage m) = true
  else only_sends t.

(** * Further functions of the modelled files *)

(** ** Target management ([services/config.py], [handlers/targets.py]) *)

(** [config["TARGETS"] = ts] *)
Definition set_TARGETS (ts : list Target) (c : Config) : Config :=
  mkConfig (ACTIVE c) (LAST_MENU_MESSAGE_ID c) (TARGET_USER_ID c)
    (TARGET_CHAT_ID c) (TARGET_TYPE c) ts (USERBOT c).

(** The position a Python list of length [len] gives to [index]: a
    negative index counts from the end; [None] is IndexError. *)
Definition py_index (len : nat) (index : Z) : option nat :=
  if 0 <=? index then
    if index <? Z.of_nat len then Some (Z.to_nat index) else None
  else if - Z.of_nat len <=? index then Some (Z.to_nat (Z.of_nat len + index))
  else None.

(** The list after [l.pop(i)], for a position inside the list. *)
Fixpoint remove_at (i : nat) (l : list Target) : list Target :=
  match l, i with
  | [], _ => []
  | _ :: rest, O => rest
  | t :: rest, S j => t :: remove_at j rest
  end.

(** The list after an in-place change of [l[i]]. *)
Fixpoint change_at (i : nat) (f : Target -> Target) (l : list Target) : list Target :=
  match l, i with
  | [], _ => []
  | t :: rest, O => f t :: rest
  | t :: rest, S j => t :: change_at j f rest
  end.

(** [gift_id] is what [str(gift_id)] is for [update_target_cache]. *)
Definition add_target (config : Config) (gift_id : GiftIdField) (gift_name : string)
    (max_price : Z) (save : bool) : M Config :=
  let new_target := mkTarget gift_id gift_name max_price true in
  let config := set_TARGETS (TARGETS config ++ [new_target]) config in
  (if save then save_config config else ret tt) ;;;
  ret config.

(** [None] when IndexError is raised (by the guard, or by [pop]). *)
Definition remove_target (config : Config) (index : Z) (save : bool)
    : M (option Config) :=
  if index >=? Z.of_nat (length (TARGETS config)) then ret None
  else
    match py_index (length (TARGETS config)) index with
    | None => ret None
    | Some i =>
        let config := set_TARGETS (remove_at i (TARGETS config)) config in
        (if save then save_config config else ret tt) ;;;
        ret (Some config)
    end.

Definition apply_update (gift_id : option GiftIdField) (max_price : option Z)
    (enabled : option bool) (target : Target) : Target :=
  mkTarget (match gift_id with Some g => g | None => GIFT_ID target end)
    (GIFT_NAME target)
    (match max_price with Some p => p | None => MAX_PRICE target end)
    (match enabled with Some e => e | None => ENABLED target end).

Definition update_target (config : Config) (index : Z) (gift_id : option GiftIdField)
    (max_price : option Z) (enabled : option bool) (save : bool)
    : M (option Config) :=
  if index >=? Z.of_nat (length (TARGETS config)) then ret None
  else
    match py_index (length (TARGETS config)) index with
    | None => ret None
    | Some i =>
        let config :=
          set_TARGETS (change_at i (apply_update gift_id max_price enabled)
                         (TARGETS config)) config in
        (if save then save_config config else ret tt) ;;;
        ret (Some config)
    end.


(** ** Cache statistics ([services/gifts_manager.py]) *)

(** The result of [get_cache_stats]; "last_global_update" and the
    "last_update" of the details are time stamps and are left out. *)
Record CacheStats := mkCacheStats {
  total_targets : nat;
  with_gifts : nat;
  targets_details : list (nat * (bool * string))   (* idx, has_gift, target_name *)
}.

Definition has_gift (entry : CacheEntry) : bool :=
  match gift_data entry with Some _ => true | None => false end.

Definition get_cache_stats : M CacheStats := fun st =>
  (mkCacheStats (length (targets_cache st))
     (length (List.filter (fun kv => has_gift (snd kv)) (targets_cache st)))
     (map (fun kv => (fst kv, (has_gift (snd kv), ti_gift_name (target_info (snd kv)))))
        (targets_cache st)),
   st).

(** ** Gift types on resale ([services/gifts_userbot.py]) *)

Definition validate_gift_id (gift_id : GiftIdField) : option Z :=
  match gift_id with
  | GidInt gift_id_int => if gift_id_int <? 1000000000 then None else Some gift_id_int
  | GidFalsy => None          (* 0, or [int('')] raising, or an unsupported type *)
  | GidBadStr => None         (* ValueError *)
  end.

(** The attributes of a gift type that the two functions below read. *)
Record BaseGift := mkBaseGift {
  bg_id : option Z;
  bg_title : option string;
  available_resale_amount : option Z
}.

Inductive AvailabilityError :=
| ErrInvalidId
| ErrSenderDisabled
| ErrNoClient
| ErrNotListed
| ErrNotOnResale (title : string) (amount : option Z)
| ErrRaised.

Record Availability := mkAvailability {
  available : bool;
  error : option AvailabilityError;
  total_found : Z;
  found_gift_name : option string
}.

Definition unavailable (e : AvailabilityError) : Availability :=
  mkAvailability false (Some e) 0 None.

(** [str(gift_id_attr) == str(validated_id)] *)
Definition same_id (gift : BaseGift) (validated_id : Z) : bool :=
  match bg_id gift with Some i => i =? validated_id | None => false end.

(** The loop that looks for the gift type: the first match, if any. *)
Fixpoint find_gift_type (validated_id : Z) (available_gifts : list BaseGift)
    : option BaseGift :=
  match available_gifts with
  | [] => None
  | gift :: rest =>
      if same_id gift validated_id then Some gift else find_gift_type validated_id rest
  end.

Definition title_or (default : string) (gift : BaseGift) : string :=
  match bg_title gift with Some t => t | None => default end.

Section GiftTypes.

Variable w : World.

(** What [client.get_available_gifts()] returns; [None] when it raises. *)
Variable get_available_gifts : option (list BaseGift).

Definition check_gift_availability (user_id : Z) (gift_id : GiftIdField)
    : M Availability :=
  match validate_gift_id gift_id with
  | None => ret (unavailable ErrInvalidId)
  | Some validated_id =>
      let* config := get_valid_config in
      if negb (UB_ENABLED (USERBOT config)) then ret (unavailable ErrSenderDisabled)
      else
        let* client := get_userbot_client w user_id in
        if negb client then ret (unavailable ErrNoClient)
        else
          match get_available_gifts with
          | None => ret (unavailable ErrRaised)
          | Some available_gifts =>
              match find_gift_type validated_id available_gifts with
              | None => ret (unavailable ErrNotListed)
              | Some target_gift =>
                  let title := title_or "Unknown" target_gift in
                  match available_resale_amount target_gift with
                  | Some resale_amount =>
                      if (resale_amount =? 0) || (resale_amount <=? 0)
                      then ret (unavailable (ErrNotOnResale title (Some resale_amount)))
                      else ret (mkAvailability true None resale_amount (Some title))
                  | None => ret (unavailable (ErrNotOnResale title None))
                  end
              end
          end
  end.

(** An entry of the result of [get_available_resale_gifts]. *)
Definition resale_entry (gift : BaseGift) : option (option Z * string * Z) :=
  match available_resale_amount gift with
  | Some resale_amount =>
      if negb (resale_amount =? 0) && (resale_amount >? 0)
      then Some (bg_id gift, title_or "No Title" gift, resale_amount)
      else None
  | None => None
  end.

Fixpoint resale_entries (available_gifts : list BaseGift)
    : list (option Z * string * Z) :=
  match available_gifts with
  | [] => []
  | gift :: rest =>
      match resale_entry gift with
      | Some e => e :: resale_entries rest
      | None => resale_entries rest
      end
  end.

Definition get_available_resale_gifts (user_id : Z) : M (list (option Z * string * Z)) :=
  let* active := is_userbot_active user_id in
  if negb active then ret []
  else
    let* config := get_valid_config in
    if negb (UB_ENABLED (USERBOT config)) then ret []
    else
      let* client := get_userbot_client w user_id in
      if negb client then ret []
      else
        match get_available_gifts with
        | None => ret []
        | Some available_gifts => ret (resale_entries available_gifts)
        end.

End GiftTypes.

(** ** Switching the system on and off ([handlers/handlers_main.py]) *)




(** ** Vocabulary of the further properties *)

(** The state after a call of [client.get_me()], after a call of
    [client.get_stars_balance()], and after [_reset_userbot_state]. *)
Definition after_get_me (st : St) : St :=
  mkSt (disk st) (targets_cache st) (session st) (S (n_get_me st)) (n_stars st)
    (n_send st) (n_search st) (trace st).

Definition after_stars (st : St) : St :=
  mkSt (disk st) (targets_cache st) (session st) (n_get_me st) (S (n_stars st))
    (n_send st) (n_search st) (trace st).

Definition after_reset (st : St) : St :=
  mkSt (disk st) (targets_cache st) (mkSession false false None false) (n_get_me st)
    (n_stars st) (n_send st) (n_search st) (trace st).

(** [c'] is [c] with another balance and with the flags ACTIVE and
    USERBOT.ENABLED either kept or cleared. *)
Definition config_narrowed (c c' : Config) : Prop :=
  exists a b e,
    c' = set_ACTIVE a (set_BALANCE b (set_UB_ENABLED e c))
    /\ (a = true -> ACTIVE c = true)
    /\ (e = true -> UB_ENABLED (USERBOT c) = true).

(** What the executor side leaves alone: the cache, the search counter,
    and all of the configuration but the balance and the two flags. *)
Definition executor_frame (st st' : St) : Prop :=
  targets_cache st' = targets_cache st
  /\ n_search st' = n_search st
  /\ config_narrowed (disk st) (disk st').

(** Every listing of the cache is sellable for stars at a price above
    zero. *)
Definition listings_eligible (c : Cache) : Prop :=
  Forall (fun kv => forall g, gift_data (snd kv) = Some g -> eligible g = true) c.

(** A purchase result after which the same link is not tried again. *)
Definition non_retriable (r : SendResult) : bool :=
  match r with
  | SendBadRequest _ | SendForbidden | SendAuthKeyUnregistered => true
  | _ => false
  end.

(** A purchase result after which the next attempt follows. *)
Definition retriable_error (r : SendResult) : bool :=
  match r with
  | SendFloodWait _ | SendRPCError | SendException => true
  | _ => false
  end.


(** [st'] differs from [st] at most in the session and in the counters
    of [get_me] and [get_stars_balance]. *)
Definition only_probed (st st' : St) : Prop :=
  disk st' = disk st /\ targets_cache st' = targets_cache st
  /\ trace st' = trace st /\ n_send st' = n_send st /\ n_search st' = n_search st.

(** The checks of [buy_resold_gift_userbot] before its first purchase
    call all pass: the cached balance covers the price, the client is
    ready, the recipient is well formed and the balance before the
    purchase is read as [balance_before]. *)
Definition purchase_reached (w : World) (session_user_id : Z)
    (target_user_id : option Z) (target_chat_id : option string)
    (expected_price : Z) (st : St) (recipient : Recipient) (balance_before : Z) : Prop :=
  expected_price <= BALANCE (USERBOT (disk st))
  /\ session_active (session st) session_user_id = true
  /\ w_get_me w (n_get_me st) = true
  /\ recipient_of target_user_id target_chat_id = Some recipient
  /\ w_get_me w (S (n_get_me st)) = true
  /\ w_stars w (n_stars st) = StarsOk balance_before.

(** The state in which the first purchase call is made then. *)
Definition at_first_attempt (st : St) : St :=
  after_stars (after_get_me (after_get_me st)).

(** The state after [k] purchase calls that changed nothing else. *)
Definition after_sends (k : nat) (e : Event) (st : St) : St :=
  mkSt (disk st) (targets_cache st) (session st) (n_get_me st) (n_stars st)
    (n_send st + k) (n_search st) (trace st ++ repeat e k).

(** What a run of the attempt loop from [st] with result [res] has
    done: [k] purchase calls with the same arguments and nothing else on
    a failure; on a success also the cached balance moved by the
    difference between the balance read after the last call and
    [cached_balance]. *)
Definition attempts_outcome (w : World) (gift_link : string) (recipient : Recipient)
    (expected_price cached_balance balance_before : Z) (attempts : nat) (st : St)
    (res : bool * St) : Prop :=
  exists k,
    (k <= attempts)%nat
    /\ trace (snd res) = trace st ++ repeat (EvSend gift_link recipient expected_price) k
    /\ n_send (snd res) = (n_send st + k)%nat
    /\ targets_cache (snd res) = targets_cache st
    /\ n_search (snd res) = n_search st
    /\ (fst res = false -> disk (snd res) = disk st)
    /\ (fst res = true ->
        exists balance_after,
          w_stars w (Nat.pred (n_stars (snd res))) = StarsOk balance_after
          /\ classify_delta (balance_before - balance_after) expected_price <> Failure
          /\ disk (snd res)
             = set_BALANCE (Z.max 0 (BALANCE (USERBOT (disk st))
                                     + (balance_after - cached_balance))) (disk st)
          /\ w_send w (Nat.pred (n_send (snd res))) gift_link recipient expected_price
             = SendOk).

(** Platforms for the examples of a purchase: one on which the purchase
    takes 150 stars from a balance of 1000, one that refuses every
    purchase, one that answers every purchase with a flood wait. *)
Module BuyExamples.

Definition paying : World :=
  mkWorld (fun _ => true)
    (fun k => match k with 0%nat => StarsOk 1000 | _ => StarsOk 850 end)
    (fun _ _ _ _ => SendOk) (fun _ _ => StreamEnd).

Definition refusing : World :=
  mkWorld (fun _ => true) (fun _ => StarsOk 1000) (fun _ _ _ _ => SendForbidden)
    (fun _ _ => StreamEnd).

Definition flooding : World :=
  mkWorld (fun _ => true) (fun _ => StarsOk 1000) (fun _ _ _ _ => SendFloodWait 5)
    (fun _ _ => StreamEnd).

End BuyExamples.

(** What the poller side leaves alone: the configuration, the trace of
    purchase calls and messages, and the counters of purchase and of
    balance calls. *)
Definition poller_frame (st st' : St) : Prop :=
  disk st' = disk st /\ trace st' = trace st
  /\ n_send st' = n_send st /\ n_stars st' = n_stars st.


(** A platform offering one gift type, twelve of which are on resale. *)
Module GiftTypeExamples.

Definition toy : BaseGift := mkBaseGift (Some 5000000000) (Some "Toy") (Some 12).

Definition catalogue : option (list BaseGift) :=
  Some [mkBaseGift (Some 4000000000) None None; toy].

End GiftTypeExamples.

(** * Properties *)

(** ** Balance oracle *)

(** C10: for every delta and every cached balance, [change_balance_userbot]
    persists and returns [max(0, current + delta)]; the persisted cached
    balance is never negative afterwards. *)
Theorem change_balance_userbot_clamps (delta : Z) (st : St) :
  let current := BALANCE (USERBOT (disk st)) in
  let r := change_balance_userbot delta st in
  fst r = Z.max 0 (current + delta)
  /\ disk (snd r) = set_BALANCE (Z.max 0 (current + delta)) (disk st)
  /\ BALANCE (USERBOT (disk (snd r))) = fst r
  /\ 0 <= BALANCE (USERBOT (disk (snd r))).
Proof.
  unfold change_balance_userbot. run.
  repeat split; lia.
Qed.

Example change_balance_overdraw :
  fst (change_balance_userbot (-250)
         (Examples.state_of (Examples.config_of [] 100) [])) = 0.
Proof. reflexivity. Qed.

Lemma get_sender_stars_balance_keeps_disk (w : World) (u : Z) (st : St) :
  disk (snd (get_sender_stars_balance w u st)) = disk st.
Proof.
  unfold get_sender_stars_balance, get_userbot_client, _reset_userbot_state,
    call_get_me, call_get_stars_balance. run.
  repeat step; reflexivity.
Qed.

Lemma refresh_balance_for_spec (w : World) (u : Z) (st : St) :
  let has_session := truthy_int (API_ID (USERBOT (disk st)))
                     && truthy_str (API_HASH (USERBOT (disk st)))
                     && truthy_str (PHONE (USERBOT (disk st))) in
  let v := if has_session && session_active (session st) u then
             match fst (get_sender_stars_balance w u st) with
             | Some b => b
             | None => 0
             end
           else 0 in
  let r := refresh_balance_for w (disk st) u st in
  fst r = v /\ disk (snd r) = set_BALANCE v (disk st).
Proof.
  unfold refresh_balance_for, persist_zero. run.
  destruct (truthy_int (API_ID (USERBOT (disk st)))
            && truthy_str (API_HASH (USERBOT (disk st)))
            && truthy_str (PHONE (USERBOT (disk st)))); simpl; [|split; reflexivity].
  destruct (session_active (session st) u) eqn:Hact; simpl; [|split; reflexivity].
  destruct (get_sender_stars_balance w u st) as [[b|] st'] eqn:Hget; simpl;
    split; reflexivity.
Qed.

Lemma refresh_balance_value (w : World) (user_id : option Z) (st : St) :
  fst (refresh_balance w user_id st) = reconciled_value w user_id st
  /\ disk (snd (refresh_balance w user_id st))
     = set_BALANCE (reconciled_value w user_id st) (disk st).
Proof.
  pose proof (refresh_balance_for_spec w) as Hfor. cbv zeta in Hfor.
  unfold reconciled_value, fully_configured, currently_active, effective_user_id.
  unfold refresh_balance, bind, load_config. cbv beta iota.
  destruct user_id as [u|].
  - rewrite andb_true_r. apply Hfor.
  - unfold truthy_int.
    destruct (USER_ID_cfg (USERBOT (disk st))) as [u|].
    + destruct (u =? 0); cbn [negb].
      * rewrite andb_false_r. split; reflexivity.
      * rewrite andb_true_r. apply Hfor.
    + rewrite andb_false_r. split; reflexivity.
Qed.

(** C8: [refresh_balance] fetches the authoritative balance, persists
    it into the configuration and returns it; when the session is not
    fully configured (API_ID, API_HASH, PHONE, or no user id: none passed
    and none in USERBOT.USER_ID) or not active, it persists 0 and
    returns 0.  [reconciled_value] is that case distinction; the two
    cases are spelled out as well. *)
Theorem refresh_balance_reconciles (w : World) (user_id : option Z) (st : St) :
  let r := refresh_balance w user_id st in
  (fst r = reconciled_value w user_id st
   /\ disk (snd r) = set_BALANCE (fst r) (disk st)
   /\ BALANCE (USERBOT (disk (snd r))) = fst r)
  /\ (fully_configured user_id (disk st) && currently_active user_id st = false ->
      fst r = 0 /\ disk (snd r) = set_BALANCE 0 (disk st))
  /\ (forall u b,
        fully_configured user_id (disk st) = true ->
        currently_active user_id st = true ->
        effective_user_id user_id (disk st) = Some u ->
        fst (get_sender_stars_balance w u st) = Some b ->
        fst r = b /\ disk (snd r) = set_BALANCE b (disk st)).
Proof.
  cbv zeta. destruct (refresh_balance_value w user_id st) as [H1 H2].
  split; [|split].
  - split; [assumption|]. rewrite H2, H1. split; reflexivity.
  - intros Hnot. unfold reconciled_value in *. rewrite Hnot in *. split; assumption.
  - intros u b Hc Ha Hu Hb. unfold reconciled_value in *.
    rewrite Hc, Ha, Hu, Hb in *. split; assumption.
Qed.

Lemma refresh_balance_reconciles_witness :
  fst (refresh_balance (Examples.still_world 900) (Some Examples.owner)
         (Examples.state_of (Examples.config_of [] 500) [])) = 900
  /\ disk (snd (refresh_balance (Examples.still_world 900) (Some Examples.owner)
                  (Examples.state_of (Examples.config_of [] 500) [])))
     = set_BALANCE 900 (Examples.config_of [] 500).
Proof.
  destruct (refresh_balance_reconciles (Examples.still_world 900) (Some Examples.owner)
              (Examples.state_of (Examples.config_of [] 500) [])) as (_ & _ & Hfetch).
  apply (Hfetch Examples.owner 900); reflexivity.
Defined.

Example refresh_balance_inactive_session :
  let st := mkSt (Examples.config_of [] 500) [] (mkSession true true (Some 7) false)
              0 0 0 0 [] in
  fst (refresh_balance (Examples.still_world 900) (Some 7) st) = 0
  /\ BALANCE (USERBOT (disk (snd (refresh_balance (Examples.still_world 900) (Some 7) st)))) = 0.
Proof. split; reflexivity. Qed.

Example refresh_balance_live_session :
  let st := Examples.state_of (Examples.config_of [] 500) [] in
  fst (refresh_balance (Examples.still_world 900) (Some 7) st) = 900
  /\ BALANCE (USERBOT (disk (snd (refresh_balance (Examples.still_world 900) (Some 7) st)))) = 900.
Proof. split; reflexivity. Qed.

(** ** Purchase verification *)

Lemma classify_delta_within (balance_diff expected_price : Z) :
  Z.abs (balance_diff - expected_price) <= 1 ->
  classify_delta balance_diff expected_price = Success.
Proof.
  intros H. unfold classify_delta.
  destruct (Z.leb_spec (Z.abs (balance_diff - expected_price)) 1); [reflexivity|lia].
Qed.

Lemma classify_delta_shifted (balance_diff expected_price : Z) :
  1 < Z.abs (balance_diff - expected_price) -> 0 < balance_diff ->
  classify_delta balance_diff expected_price = SuccessWithWarning.
Proof.
  intros H Hpos. unfold classify_delta.
  destruct (Z.leb_spec (Z.abs (balance_diff - expected_price)) 1); [lia|].
  destruct (Z.gtb_spec balance_diff 0); [reflexivity|lia].
Qed.

Lemma classify_delta_unmoved (balance_diff expected_price : Z) :
  1 < Z.abs (balance_diff - expected_price) -> balance_diff <= 0 ->
  classify_delta balance_diff expected_price = Failure.
Proof.
  intros H Hneg. unfold classify_delta.
  destruct (Z.leb_spec (Z.abs (balance_diff - expected_price)) 1); [lia|].
  destruct (Z.gtb_spec balance_diff 0); [lia|reflexivity].
Qed.

(** From a price of 2 on, the classification is the one of the design
    document: within one unit of the price is a success, any other
    positive difference a success with warning, zero or less a failure. *)
Lemma classify_delta_from_price_two (balance_diff expected_price : Z) :
  2 <= expected_price ->
  (Z.abs (balance_diff - expected_price) <= 1 ->
     classify_delta balance_diff expected_price = Success)
  /\ (1 < Z.abs (balance_diff - expected_price) -> 0 < balance_diff ->
     classify_delta balance_diff expected_price = SuccessWithWarning)
  /\ (balance_diff <= 0 -> classify_delta balance_diff expected_price = Failure)
  /\ classify_delta (expected_price - 1) expected_price = Success
  /\ classify_delta expected_price expected_price = Success
  /\ classify_delta (expected_price + 1) expected_price = Success
  /\ classify_delta 0 expected_price = Failure
  /\ classify_delta (expected_price + 500) expected_price = SuccessWithWarning.
Proof.
  intros He. repeat split.
  - apply classify_delta_within.
  - apply classify_delta_shifted.
  - intros Hd. apply classify_delta_unmoved; lia.
  - apply classify_delta_within; lia.
  - apply classify_delta_within; lia.
  - apply classify_delta_within; lia.
  - apply classify_delta_unmoved; lia.
  - apply classify_delta_shifted; lia.
Qed.

(** Below a price of 2 the tolerance reaches down to a difference of
    zero: an unchanged balance counts as a success. *)
Lemma classify_delta_unmoved_low_price (expected_price : Z) :
  -1 <= expected_price <= 1 -> classify_delta 0 expected_price = Success.
Proof. intros H. apply classify_delta_within. lia. Qed.

(** C1, at the input where the code departs from it: with an expected
    price of 1 a balance that did not move at all (difference 0) lies
    within the tolerance and is classified a success, so the purchase
    function returns True although nothing was debited. *)
Theorem unmoved_balance_at_price_one_is_success :
  let w := Examples.still_world 100 in
  let st := Examples.state_of (Examples.config_of [] 100) [] in
  let r := buy_resold_gift_userbot w Examples.owner (Examples.nft "Toy-1")
             (Some 42) None 1 3 st in
  classify_delta 0 1 = Success
  /\ classify_delta 0 1 <> Failure
  /\ fst r = true
  /\ trace (snd r) = [EvSend (Examples.nft "Toy-1") (ToUser 42) 1]
  /\ BALANCE (USERBOT (disk (snd r))) = 100.
Proof. repeat split; try reflexivity. discriminate. Qed.



(** ** Listing cache and poller *)

Lemma first_eligible_is_cheapest (s : GiftStream) (seen : nat) (g : GiftData) (k : nat) :
  price_ascending s ->
  first_eligible s seen = Some (g, k) ->
  eligible g = true
  /\ In g (stream_listings s)
  /\ forall g', In g' (stream_listings s) -> eligible g' = true -> price g <= price g'.
Proof.
  unfold price_ascending. revert seen.
  induction s as [| |gift rest IH]; intros seen Hsorted Hfirst; simpl in *;
    try discriminate.
  destruct (eligible (normalize_resale_gift gift)) eqn:Hel.
  - injection Hfirst as <- <-. simpl in Hsorted.
    apply StronglySorted_inv in Hsorted as [_ Hall].
    repeat split; [assumption|left; reflexivity|].
    intros g' [<-|Hin] Hel'; [lia|].
    rewrite List.Forall_forall in Hall. apply Hall.
    apply in_map. apply filter_In. split; assumption.
  - destruct (IH (S seen) Hsorted Hfirst) as (He & Hin & Hmin).
    repeat split; [assumption|right; assumption|].
    intros g' [<-|Hin'] Hel'; [congruence|]. apply Hmin; assumption.
Qed.

Lemma scan_gifts_first_eligible (limit : Z) (s : GiftStream) (seen : nat) :
  scan_gifts (Some limit) s seen =
  match first_eligible s seen with
  | Some (g, k) => (if price g <=? limit then Some g else None, k)
  | None => (None, seen + length (stream_listings s))%nat
  end.
Proof.
  revert seen. induction s as [| |gift rest IH]; intros seen;
    cbn [scan_gifts first_eligible stream_listings length].
  - f_equal. lia.
  - f_equal. lia.
  - cbv zeta. unfold eligible.
    destruct (available_for_stars (normalize_resale_gift gift)
              && (price (normalize_resale_gift gift) >? 0)).
    + destruct (price (normalize_resale_gift gift) <=? limit); reflexivity.
    + rewrite IH. destruct (first_eligible rest (S seen)) as [[g k]|]; [reflexivity|].
      f_equal. lia.
Qed.

Lemma scan_gifts_within_limit (limit : Z) (s : GiftStream) (seen : nat) (g : GiftData) :
  fst (scan_gifts (Some limit) s seen) = Some g -> price g <= limit.
Proof.
  rewrite scan_gifts_first_eligible.
  destruct (first_eligible s seen) as [[g' k]|]; simpl; [|discriminate].
  destruct (Z.leb_spec (price g') limit); [|discriminate].
  intros [= <-]. assumption.
Qed.

Lemma find_cheapest_gift_by_id_spec (w : World) (user_id gift_id limit : Z) (st : St) :
  let r := find_cheapest_gift_by_id w user_id gift_id (Some limit) st in
  targets_cache (snd r) = targets_cache st
  /\ (fst r = None
      \/ (session_active (session st) user_id = true
          /\ UB_ENABLED (USERBOT (disk st)) = true
          /\ w_get_me w (n_get_me st) = true
          /\ fst r = fst (scan_gifts (Some limit) (w_search w (n_search st) gift_id) 0))).
Proof.
  unfold find_cheapest_gift_by_id, get_userbot_client, _reset_userbot_state,
    call_get_me, call_search_gifts_for_resale. run.
  repeat step; (split; [reflexivity|]); auto 10.
Qed.

(** The cache of a fresh process is empty. *)
Lemma empty_cache_ceiling : ceiling_ok [].
Proof. constructor. Qed.

Lemma dict_set_ceiling (k : nat) (e : CacheEntry) (c : Cache) :
  entry_ok e -> ceiling_ok c -> ceiling_ok (dict_set k e c).
Proof.
  intros He. unfold ceiling_ok. induction c as [|[k' e'] c IH]; intros Hc; simpl.
  - constructor; [assumption|constructor].
  - apply Forall_cons_iff in Hc as [He' Hc]. destruct (Nat.eqb k' k).
    + constructor; assumption.
    + constructor; [assumption|apply IH, Hc].
Qed.

Lemma dict_get_set (k : nat) (e : CacheEntry) (c : Cache) :
  dict_get k (dict_set k e c) = Some e.
Proof.
  induction c as [|[k' e'] c IH]; simpl.
  - rewrite Nat.eqb_refl. reflexivity.
  - destruct (Nat.eqb k' k) eqn:Hk; simpl.
    + rewrite Nat.eqb_refl. reflexivity.
    + rewrite Hk. exact IH.
Qed.

(** What [update_target_cache] does to the cache: nothing, or one entry
    written for the target, holding what the search returned. *)
Lemma update_target_cache_spec (w : World) (user_id : Z) (idx : nat) (t : Target) (st : St) :
  let r := update_target_cache w user_id idx t st in
  match GIFT_ID t with
  | GidInt gift_id =>
      fst r = fst (find_cheapest_gift_by_id w user_id gift_id (Some (MAX_PRICE t)) st)
      /\ targets_cache (snd r) =
         dict_set idx (mkCacheEntry (fst r) (mkTargetInfo gift_id (GIFT_NAME t) (MAX_PRICE t)))
           (targets_cache st)
  | _ => fst r = None /\ snd r = st
  end.
Proof.
  unfold update_target_cache. destruct (GIFT_ID t) as [| |gift_id]; simpl; auto.
  pose proof (find_cheapest_gift_by_id_spec w user_id gift_id (MAX_PRICE t) st) as [Hc _].
  run. destruct (find_cheapest_gift_by_id w user_id gift_id (Some (MAX_PRICE t)) st)
    as [g st'] eqn:Hf. simpl in *. rewrite Hc. auto.
Qed.

Lemma find_cheapest_within_limit (w : World) (user_id gift_id limit : Z) (st : St)
    (g : GiftData) :
  fst (find_cheapest_gift_by_id w user_id gift_id (Some limit) st) = Some g ->
  price g <= limit.
Proof.
  intros Hg.
  destruct (find_cheapest_gift_by_id_spec w user_id gift_id limit st) as [_ [Hn|(_ & _ & _ & Hs)]].
  - congruence.
  - rewrite Hs in Hg. eapply scan_gifts_within_limit, Hg.
Qed.

Lemma update_target_cache_ceiling (w : World) (user_id : Z) (idx : nat) (t : Target) (st : St) :
  ceiling_ok (targets_cache st) ->
  ceiling_ok (targets_cache (snd (update_target_cache w user_id idx t st))).
Proof.
  intros Hc. pose proof (update_target_cache_spec w user_id idx t st) as H. cbv zeta in H.
  destruct (GIFT_ID t) as [| |gift_id]; try (destruct H as [_ ->]; assumption).
  destruct H as [Hf ->]. apply dict_set_ceiling; [|assumption].
  intros g Hg. simpl in *. rewrite Hf in Hg.
  eapply find_cheapest_within_limit, Hg.
Qed.

(** The entry that [update_target_cache] writes for a target keeps the
    ceiling of that target, whatever the cache held before. *)
Lemma written_entry_within_ceiling (w : World) (user_id : Z) (idx : nat) (t : Target)
    (gift_id : Z) (st : St) :
  GIFT_ID t = GidInt gift_id ->
  exists e,
    dict_get idx (targets_cache (snd (update_target_cache w user_id idx t st))) = Some e
    /\ target_info e = mkTargetInfo gift_id (GIFT_NAME t) (MAX_PRICE t)
    /\ entry_ok e.
Proof.
  intros Hid. pose proof (update_target_cache_spec w user_id idx t st) as H. cbv zeta in H.
  rewrite Hid in H. destruct H as [Hf ->]. rewrite dict_get_set.
  eexists. split; [reflexivity|]. split; [reflexivity|].
  intros g Hg. simpl in *. rewrite Hf in Hg. eapply find_cheapest_within_limit, Hg.
Qed.

Lemma update_all_ceiling (w : World) (user_id : Z) (ts : list (nat * Target)) (st : St) :
  ceiling_ok (targets_cache st) ->
  ceiling_ok (targets_cache (snd (update_all w user_id ts st))).
Proof.
  revert st. induction ts as [|[idx t] ts IH]; intros st Hc; simpl; [assumption|].
  unfold bind.
  pose proof (update_target_cache_ceiling w user_id idx t st Hc) as H1.
  destruct (update_target_cache w user_id idx t st) as [g st']. simpl in H1.
  apply IH, H1.
Qed.

Lemma cache_write_ceiling (w : World) (op : CacheWrite) (st : St) :
  ceiling_ok (targets_cache st) -> ceiling_ok (targets_cache (cache_write w op st)).
Proof.
  intros Hc. destruct op as [user_id idx t|user_id|]; simpl.
  - apply update_target_cache_ceiling, Hc.
  - unfold targets_updater_cycle. run.
    destruct (ACTIVE (disk st)); simpl; [|assumption].
    apply update_all_ceiling, Hc.
  - constructor.
Qed.

(** C3 (ceiling invariant): an entry written by the poller with a
    listing present has a price no greater than the max_price of its
    own target snapshot, and every operation that writes the cache
    (single update, poller sweep, clearing) preserves this for the
    whole cache. *)
Theorem ceiling_invariant (w : World) (ops : list CacheWrite) (st : St) :
  ceiling_ok (targets_cache st) ->
  ceiling_ok (targets_cache (cache_writes w ops st))
  /\ forall k e g, dict_get k (targets_cache (cache_writes w ops st)) = Some e ->
       gift_data e = Some g -> price g <= ti_max_price (target_info e).
Proof.
  intros Hc.
  assert (H : ceiling_ok (targets_cache (cache_writes w ops st))).
  { unfold cache_writes. revert st Hc.
    induction ops as [|op ops IH]; intros st Hc; simpl; [assumption|].
    apply IH, cache_write_ceiling, Hc. }
  split; [assumption|].
  intros k e g Hk Hg. unfold ceiling_ok in H. rewrite List.Forall_forall in H.
  assert (Hin : In (k, e) (targets_cache (cache_writes w ops st))).
  { clear -Hk. induction (targets_cache (cache_writes w ops st)) as [|[k' e'] c IH];
      simpl in *; [discriminate|].
    destruct (Nat.eqb k' k) eqn:Hkk.
    - apply Nat.eqb_eq in Hkk. left. congruence.
    - right. apply IH, Hk. }
  apply (H _ Hin g Hg).
Qed.

Lemma ceiling_invariant_witness :
  ceiling_ok (targets_cache
                (cache_writes PollerExamples.market
                   [WriteSweep Examples.owner; WriteClear;
                    WriteUpdate Examples.owner 1 PollerExamples.wide]
                   PollerExamples.start)).
Proof.
  apply (ceiling_invariant PollerExamples.market
           [WriteSweep Examples.owner; WriteClear;
            WriteUpdate Examples.owner 1 PollerExamples.wide]
           PollerExamples.start).
  simpl. repeat constructor. intros g [= <-]. simpl. lia.
Defined.

Example sweep_caches_absence_and_listing :
  targets_cache (cache_writes PollerExamples.market [WriteSweep Examples.owner]
                   PollerExamples.start)
  = [(0%nat, mkCacheEntry None (mkTargetInfo 5 "gift" 1000));
     (1%nat, mkCacheEntry
               (Some (normalize_resale_gift (PollerExamples.raw "Toy-2" (Some 2000) false)))
               (mkTargetInfo 5 "gift" 3000))].
Proof. reflexivity. Qed.

(** C4: when the search for a target delivers a cheapest eligible
    listing [g] (the first eligible one of the price-ordered result,
    reached after [k] listings) and [g] costs more than the target's
    max_price, the poller caches absence for the target, returns None
    and has taken no listing beyond [g] from the search; when [g] is
    within max_price it is cached and returned. *)
Theorem poller_ceiling_decision (w : World) (user_id : Z) (idx : nat) (t : Target)
    (gift_id : Z) (st : St) (g : GiftData) (k : nat) :
  GIFT_ID t = GidInt gift_id ->
  session_active (session st) user_id = true ->
  UB_ENABLED (USERBOT (disk st)) = true ->
  w_get_me w (n_get_me st) = true ->
  price_ascending (w_search w (n_search st) gift_id) ->
  first_eligible (w_search w (n_search st) gift_id) 0 = Some (g, k) ->
  let r := update_target_cache w user_id idx t st in
  let info := mkTargetInfo gift_id (GIFT_NAME t) (MAX_PRICE t) in
  (forall g', In g' (stream_listings (w_search w (n_search st) gift_id)) ->
              eligible g' = true -> price g <= price g')
  /\ (MAX_PRICE t < price g ->
        fst r = None
        /\ dict_get idx (targets_cache (snd r)) = Some (mkCacheEntry None info)
        /\ snd (scan_gifts (Some (MAX_PRICE t)) (w_search w (n_search st) gift_id) 0) = k)
  /\ (price g <= MAX_PRICE t ->
        fst r = Some g
        /\ dict_get idx (targets_cache (snd r)) = Some (mkCacheEntry (Some g) info)).
Proof.
  intros Hid Hact Hen Hme Hsorted Hfirst. cbv zeta.
  pose proof (update_target_cache_spec w user_id idx t st) as Hup. cbv zeta in Hup.
  rewrite Hid in Hup. destruct Hup as [Hres Hcache].
  assert (Hfind : fst (find_cheapest_gift_by_id w user_id gift_id (Some (MAX_PRICE t)) st)
                  = fst (scan_gifts (Some (MAX_PRICE t)) (w_search w (n_search st) gift_id) 0)).
  { unfold find_cheapest_gift_by_id, get_userbot_client, call_get_me,
      call_search_gifts_for_resale. run. repeat step. reflexivity. }
  rewrite Hfind in Hres.
  pose proof (scan_gifts_first_eligible (MAX_PRICE t) (w_search w (n_search st) gift_id) 0)
    as Hscan.
  rewrite Hfirst in Hscan.
  split.
  { eapply first_eligible_is_cheapest; eassumption. }
  split; intros Hprice.
  - destruct (Z.leb_spec (price g) (MAX_PRICE t)); [lia|].
    rewrite Hscan in *. simpl in Hres.
    rewrite Hcache, Hres, dict_get_set. auto.
  - destruct (Z.leb_spec (price g) (MAX_PRICE t)); [|lia].
    rewrite Hscan in *. simpl in Hres.
    rewrite Hcache, Hres, dict_get_set. auto.
Qed.

Lemma poller_ceiling_decision_witness :
  fst (update_target_cache PollerExamples.market Examples.owner 0
         PollerExamples.tight PollerExamples.start) = None
  /\ dict_get 0 (targets_cache
                   (snd (update_target_cache PollerExamples.market Examples.owner 0
                           PollerExamples.tight PollerExamples.start)))
     = Some (mkCacheEntry None (mkTargetInfo 5 "gift" 1000))
  /\ snd (scan_gifts (Some 1000) PollerExamples.offers 0) = 2%nat.
Proof.
  apply (poller_ceiling_decision PollerExamples.market Examples.owner 0
           PollerExamples.tight 5 PollerExamples.start
           (normalize_resale_gift (PollerExamples.raw "Toy-2" (Some 2000) false)) 2).
  - reflexivity.
  - reflexivity.
  - reflexivity.
  - reflexivity.
  - unfold price_ascending. simpl. repeat constructor; simpl; lia.
  - reflexivity.
  - simpl. lia.
Defined.

Example overpriced_listing_is_not_cached :
  let r := update_target_cache PollerExamples.market Examples.owner 0
             PollerExamples.tight PollerExamples.start in
  fst r = None
  /\ dict_get 0 (targets_cache (snd r)) = Some (mkCacheEntry None (mkTargetInfo 5 "gift" 1000)).
Proof. split; reflexivity. Qed.

(** ** Purchase executor *)

Lemma get_sender_stars_balance_trace (w : World) (u : Z) (st : St) :
  trace (snd (get_sender_stars_balance w u st)) = trace st.
Proof.
  unfold get_sender_stars_balance, get_userbot_client, _reset_userbot_state,
    call_get_me, call_get_stars_balance. run.
  repeat step; reflexivity.
Qed.

Lemma get_userbot_client_trace (w : World) (u : Z) (st : St) :
  trace (snd (get_userbot_client w u st)) = trace st.
Proof.
  unfold get_userbot_client, _reset_userbot_state, call_get_me. run.
  repeat step; reflexivity.
Qed.

Lemma refresh_balance_trace (w : World) (user_id : option Z) (st : St) :
  trace (snd (refresh_balance w user_id st)) = trace st.
Proof.
  assert (Hfor : forall c u, trace (snd (refresh_balance_for w c u st)) = trace st).
  { intros c u. unfold refresh_balance_for, persist_zero. run.
    destruct (truthy_int (API_ID (USERBOT c)) && truthy_str (API_HASH (USERBOT c))
              && truthy_str (PHONE (USERBOT c))); simpl; [|reflexivity].
    destruct (session_active (session st) u); simpl; [|reflexivity].
    pose proof (get_sender_stars_balance_trace w u st) as Ht.
    destruct (get_sender_stars_balance w u st) as [[b|] st']; simpl in *; exact Ht. }
  unfold refresh_balance, bind, load_config. cbv beta iota.
  destruct user_id as [u|]; [apply Hfor|].
  destruct (USER_ID_cfg (USERBOT (disk st))) as [u|]; [|reflexivity].
  destruct (negb (u =? 0)); [apply Hfor|reflexivity].
Qed.

Lemma only_sends_counts (t : list Event) :
  only_sends t -> purchase_calls t = length t /\ success_notifications t = 0%nat.
Proof.
  unfold only_sends, purchase_calls, success_notifications.
  induction t as [|e t IH]; simpl; [auto|].
  intros H. apply andb_true_iff in H as [He Ht]. destruct (IH Ht) as [IH1 IH2].
  rewrite He. destruct e; try discriminate. simpl. auto.
Qed.

Lemma purchase_attempts_trace (w : World) (attempts : nat) (u : Z) (gift_link : string)
    (recipient : Recipient) (expected_price cached_balance balance_before : Z) (st : St) :
  exists t,
    trace (snd (purchase_attempts w attempts u gift_link recipient expected_price
                  cached_balance balance_before st)) = trace st ++ t
    /\ only_sends t /\ (length t <= attempts)%nat.
Proof.
  revert st. induction attempts as [|n IH]; intros st.
  - exists []. simpl. rewrite app_nil_r. repeat split. lia.
  - cbn [purchase_attempts]. unfold bind at 1. unfold call_send_resold_gift at 1.
    set (st1 := mkSt (disk st) (targets_cache st) (session st) (n_get_me st)
                  (n_stars st) (S (n_send st)) (n_search st)
                  (trace st ++ [EvSend gift_link recipient expected_price])).
    assert (Hnext : exists t,
               trace (snd (purchase_attempts w n u gift_link recipient expected_price
                             cached_balance balance_before st1)) = trace st ++ t
               /\ only_sends t /\ (length t <= S n)%nat).
    { destruct (IH st1) as (t & Ht & Hs & Hl).
      exists (EvSend gift_link recipient expected_price :: t).
      rewrite Ht. subst st1. simpl. rewrite <- app_assoc. simpl.
      repeat split; [assumption|lia]. }
    assert (Hstop : forall s : St, trace s = trace st1 ->
               exists t, trace s = trace st ++ t
                         /\ only_sends t /\ (length t <= S n)%nat).
    { intros s Hs. exists [EvSend gift_link recipient expected_price].
      rewrite Hs. subst st1. simpl. repeat split. lia. }
    destruct (w_send w (n_send st) gift_link recipient expected_price);
      try exact Hnext; try (unfold ret; cbn [snd]; apply Hstop; reflexivity).
    unfold bind at 1.
    pose proof (get_sender_stars_balance_trace w u st1) as Hbal.
    destruct (get_sender_stars_balance w u st1) as [[balance_after|] st2];
      simpl in Hbal.
    + destruct (classify_delta (balance_before - balance_after) expected_price).
      * unfold change_balance_userbot. run. apply Hstop. simpl. exact Hbal.
      * unfold change_balance_userbot. run. apply Hstop. simpl. exact Hbal.
      * destruct (IH st2) as (t & Ht & Hs & Hl).
        exists (EvSend gift_link recipient expected_price :: t).
        rewrite Ht, Hbal. subst st1. simpl. rewrite <- app_assoc. simpl.
        repeat split; [assumption|lia].
    + destruct (IH st2) as (t & Ht & Hs & Hl).
      exists (EvSend gift_link recipient expected_price :: t).
      rewrite Ht, Hbal. subst st1. simpl. rewrite <- app_assoc. simpl.
      repeat split; [assumption|lia].
Qed.

Lemma buy_resold_gift_userbot_trace (w : World) (u : Z) (gift_link : string)
    (target_user_id : option Z) (target_chat_id : option string) (expected_price : Z)
    (retries : nat) (st : St) :
  exists t,
    trace (snd (buy_resold_gift_userbot w u gift_link target_user_id target_chat_id
                  expected_price retries st)) = trace st ++ t
    /\ only_sends t /\ (length t <= retries)%nat.
Proof.
  assert (Hnone : forall s : St, trace s = trace st ->
             exists t, trace s = trace st ++ t
                       /\ only_sends t /\ (length t <= retries)%nat).
  { intros s Hs. exists []. rewrite app_nil_r. repeat split; [assumption|simpl; lia]. }
  unfold buy_resold_gift_userbot. unfold bind at 1. unfold get_valid_config, load_config.
  destruct (BALANCE (USERBOT (disk st)) <? expected_price).
  { run. apply Hnone. reflexivity. }
  unfold bind at 1.
  pose proof (get_userbot_client_trace w u st) as Hcl.
  destruct (get_userbot_client w u st) as [client st1]. simpl in Hcl.
  destruct client; cbn [negb]; [|unfold ret; cbn [snd]; apply Hnone; exact Hcl].
  destruct (recipient_of target_user_id target_chat_id) as [recipient|];
    [|unfold ret; cbn [snd]; apply Hnone; exact Hcl].
  unfold bind at 1.
  pose proof (get_sender_stars_balance_trace w u st1) as Hbal.
  destruct (get_sender_stars_balance w u st1) as [[balance_before|] st2]; simpl in Hbal;
    [|unfold ret; cbn [snd]; apply Hnone; congruence].
  destruct (purchase_attempts_trace w retries u gift_link recipient expected_price
              (BALANCE (USERBOT (disk st))) balance_before st2) as (t & Ht & Hs & Hl).
  exists t. rewrite Ht, Hbal, Hcl. auto.
Qed.

Lemma purchase_calls_app (a b : list Event) :
  purchase_calls (a ++ b) = (purchase_calls a + purchase_calls b)%nat.
Proof. unfold purchase_calls. rewrite List.filter_app, List.length_app. reflexivity. Qed.

Lemma success_notifications_app (a b : list Event) :
  success_notifications (a ++ b)
  = (success_notifications a + success_notifications b)%nat.
Proof.
  unfold success_notifications. rewrite List.filter_app, List.length_app. reflexivity.
Qed.

Lemma only_sends_app (a b : list Event) :
  only_sends a -> only_sends b -> only_sends (a ++ b).
Proof.
  unfold only_sends. intros Ha Hb. rewrite forallb_app, Ha, Hb. reflexivity.
Qed.

Lemma scan_candidates_trace (w : World) (USER_ID : Z) (config : Config)
    (gifts : list TargetGift) (st : St) :
  let r := scan_candidates w USER_ID config gifts st in
  exists t,
    trace (snd r) = trace st ++ t
    /\ scan_shape (fst r) t
    /\ (purchase_calls t <= 3 * length (List.filter (candidate_ok config) gifts))%nat.
Proof.
  cbv zeta. revert st. induction gifts as [|tg rest IH]; intros st.
  - exists []. simpl. rewrite app_nil_r. repeat split. unfold purchase_calls. simpl. lia.
  - cbn [scan_candidates List.filter]. unfold candidate_ok at 1. unfold tg_price.
    destruct (String.eqb (link (tg_gift tg)) "") eqn:Hlink; cbn [negb andb]; [apply IH|].
    destruct (price (tg_gift tg) >? target_max_price tg) eqn:Hprice; cbn [negb andb];
      [apply IH|].
    destruct (validate_gift_purchase tg (TARGET_USER_ID config) (TARGET_CHAT_ID config)
                (target_max_price tg)) eqn:Hval; cbn [negb]; [|apply IH].
    unfold bind.
    destruct (buy_resold_gift_userbot_trace w USER_ID (link (tg_gift tg))
                (TARGET_USER_ID config) (TARGET_CHAT_ID config) (price (tg_gift tg)) 3 st)
      as (t1 & Ht1 & Hs1 & Hl1).
    destruct (buy_resold_gift_userbot w USER_ID (link (tg_gift tg))
                (TARGET_USER_ID config) (TARGET_CHAT_ID config) (price (tg_gift tg)) 3 st)
      as [success st1]. cbn [snd] in Ht1.
    destruct (only_sends_counts t1 Hs1) as [Hc1 _].
    destruct success.
    + run.
      pose proof (refresh_balance_trace w (Some USER_ID)
                    (mkSt (disk st1) (targets_cache st1) (session st1) (n_get_me st1)
                       (n_stars st1) (n_send st1) (n_search st1)
                       ((trace st1 ++
                         [EvBotMessage (MsgGiftSent (target_gift_name tg) (name (tg_gift tg))
                            (price (tg_gift tg)) (target_max_price tg) (link (tg_gift tg)))])
                        ++ [EvMainMenu]))) as Hr.
      destruct (refresh_balance w (Some USER_ID) _) as [b st2]. simpl in Hr. simpl.
      exists (t1 ++ [EvBotMessage (MsgGiftSent (target_gift_name tg) (name (tg_gift tg))
                       (price (tg_gift tg)) (target_max_price tg) (link (tg_gift tg)));
                     EvMainMenu]).
      rewrite Hr, Ht1. split; [|split].
      * repeat rewrite <- app_assoc. reflexivity.
      * unfold scan_shape. do 2 eexists. split; [reflexivity|]. split; [assumption|reflexivity].
      * rewrite purchase_calls_app, Hc1. unfold purchase_calls. simpl. lia.
    + destruct (IH st1) as (t2 & Ht2 & Hshape & Hl2).
      exists (t1 ++ t2). rewrite Ht2, Ht1, app_assoc. split; [reflexivity|split].
      * destruct (fst (scan_candidates w USER_ID config rest st1)); simpl in *.
        -- destruct Hshape as (pre & m & -> & Hpre & Hm).
           exists (t1 ++ pre), m. rewrite app_assoc.
           repeat split; [apply only_sends_app; assumption|assumption].
        -- apply only_sends_app; assumption.
      * rewrite purchase_calls_app, Hc1. simpl. lia.
Qed.

Lemma closing_pair_ordered (pre : list Event) (m : Message) :
  only_sends pre ->
  stops_after_success (pre ++ [EvBotMessage m; EvMainMenu]) = true
  /\ (success_notifications (pre ++ [EvBotMessage m; EvMainMenu]) <= 1)%nat
  /\ purchase_calls (pre ++ [EvBotMessage m; EvMainMenu]) = purchase_calls pre.
Proof.
  intros Hpre. destruct (only_sends_counts pre Hpre) as [_ Hn].
  rewrite success_notifications_app, purchase_calls_app, Hn.
  repeat split.
  - unfold only_sends in Hpre. induction pre as [|e pre IH]; simpl in *.
    + destruct m; reflexivity.
    + apply andb_true_iff in Hpre as [He Hpre]. destruct e; try discriminate.
      simpl. apply IH; [assumption|].
      destruct (only_sends_counts pre Hpre) as [_ H0]. exact H0.
  - unfold success_notifications. destruct m; simpl; lia.
  - unfold purchase_calls at 2. simpl. lia.
Qed.

Lemma only_sends_ordered (t : list Event) :
  only_sends t -> stops_after_success t = true.
Proof.
  unfold only_sends. induction t as [|e t IH]; simpl; [reflexivity|].
  intros H. apply andb_true_iff in H as [He Ht]. destruct e; try discriminate.
  simpl. apply IH, Ht.
Qed.

Lemma events_of_app (st st' : St) (t : list Event) :
  trace st' = trace st ++ t -> events_of st st' = t.
Proof.
  intros H. unfold events_of. rewrite H. rewrite skipn_app, skipn_all, Nat.sub_diag.
  reflexivity.
Qed.

(** The shape of the events of one executor cycle. *)
Lemma worker_cycle_trace (w : World) (USER_ID : Z) (st : St) :
  exists t,
    trace (snd (worker_cycle w USER_ID st)) = trace st ++ t
    /\ (success_notifications t <= 1)%nat
    /\ (purchase_calls t <= 3 * length (affordable st))%nat
    /\ stops_after_success t = true.
Proof.
  unfold affordable, candidates.
  remember (3 * length (List.filter (candidate_ok (disk st))
                         (sort_by_price (available_of_cache (targets_cache st)))))%nat
    as bound eqn:Hbound.
  assert (Hnil : forall tr : list Event, tr = trace st ->
            exists t, tr = trace st ++ t
              /\ (success_notifications t <= 1)%nat
              /\ (purchase_calls t <= bound)%nat
              /\ stops_after_success t = true).
  { intros tr ->. exists []. rewrite app_nil_r. repeat split.
    - unfold success_notifications. simpl. lia.
    - unfold purchase_calls. simpl. lia. }
  assert (Hpair : forall (pre : list Event) (m : Message) (tr : list Event),
            only_sends pre ->
            (purchase_calls pre <= bound)%nat ->
            tr = (trace st ++ pre) ++ [EvBotMessage m; EvMainMenu] ->
            exists t, tr = trace st ++ t
              /\ (success_notifications t <= 1)%nat
              /\ (purchase_calls t <= bound)%nat
              /\ stops_after_success t = true).
  { intros pre m tr Hpre Hlen ->. exists (pre ++ [EvBotMessage m; EvMainMenu]).
    destruct (closing_pair_ordered pre m Hpre) as (H1 & H2 & H3).
    rewrite <- app_assoc, H3. auto. }
  unfold worker_cycle, hard_stop. unfold bind at 1. unfold get_valid_config, load_config.
  destruct (ACTIVE (disk st)); cbn [negb]; [|apply Hnil; reflexivity].
  unfold bind at 1. unfold is_userbot_active at 1.
  destruct (session_active (session st) USER_ID); cbn [negb].
  2:{ run. apply (Hpair [] MsgSenderInactive).
      - reflexivity.
      - unfold purchase_calls. simpl. lia.
      - rewrite app_nil_r, <- app_assoc. reflexivity. }
  destruct (enabled_targets (disk st)) as [|t0 ts]; [apply Hnil; reflexivity|].
  destruct (negb (truthy_int (TARGET_USER_ID (disk st)))
            && negb (truthy_str (TARGET_CHAT_ID (disk st)))).
  { run. apply (Hpair [] MsgRecipientMissing).
    - reflexivity.
    - unfold purchase_calls. simpl. lia.
    - rewrite app_nil_r, <- app_assoc. reflexivity. }
  unfold bind at 1. unfold get_all_available_target_gifts at 1.
  destruct (sort_by_price (available_of_cache (targets_cache st))) as [|first others] eqn:Hc;
    [apply Hnil; reflexivity|].
  unfold bind at 1.
  destruct (scan_candidates_trace w USER_ID (disk st) (first :: others) st)
    as (t1 & Ht1 & Hshape & Hl1).
  rewrite <- Hbound in Hl1.
  destruct (scan_candidates w USER_ID (disk st) (first :: others) st) as [purchased st1].
  cbn [fst snd] in *. destruct purchased; cbn [scan_shape] in Hshape.
  - destruct Hshape as (pre & m & -> & Hpre & Hm).
    destruct (closing_pair_ordered pre m Hpre) as (_ & _ & H3). rewrite H3 in Hl1.
    unfold ret. cbn [snd]. apply (Hpair pre m); [assumption|assumption|].
    rewrite Ht1, app_assoc. reflexivity.
  - unfold bind at 1.
    pose proof (refresh_balance_trace w (Some USER_ID) st1) as Hr.
    destruct (refresh_balance w (Some USER_ID) st1) as [current_balance st2].
    cbn [snd] in Hr.
    destruct (current_balance <? min_price_of first others).
    + run. apply (Hpair t1 (MsgInsufficient current_balance (min_price_of first others)));
        [assumption|assumption|].
      rewrite Hr, Ht1, <- app_assoc. reflexivity.
    + unfold ret. cbn [snd]. exists t1. rewrite Hr, Ht1.
      destruct (only_sends_counts t1 Hshape) as [_ H0].
      repeat split; [lia|assumption|apply only_sends_ordered, Hshape].
Qed.

(** C2, as the code has it: in every executor cycle at most one success
    notification is sent, and after it the cycle issues no further
    purchase call and no further success notification (at most one
    purchase succeeds per cycle); the number of purchase calls is not
    fixed to one: each affordable candidate that is tried gets up to
    three calls, so a cycle over N affordable candidates issues between
    0 and 3N of them. *)
Theorem cycle_buys_at_most_once (w : World) (USER_ID : Z) (st : St) :
  let r := worker_cycle w USER_ID st in
  let t := events_of st (snd r) in
  trace (snd r) = trace st ++ t
  /\ (success_notifications t <= 1)%nat
  /\ (purchase_calls t <= 3 * length (affordable st))%nat
  /\ stops_after_success t = true.
Proof.
  cbv zeta. destruct (worker_cycle_trace w USER_ID st) as (t & Ht & H1 & H2 & H3).
  rewrite (events_of_app _ _ _ Ht). auto.
Qed.

(** C2 fails as stated: with two affordable candidates in the cache,
    the purchase of the cheaper one is refused by the platform and the
    executor goes on to the next candidate in the same cycle, so two
    purchase calls are issued. *)
Lemma two_purchase_calls_in_one_cycle :
  let st := ExecutorExamples.ready 1000 in
  let r := worker_cycle ExecutorExamples.first_gone Examples.owner st in
  length (affordable st) = 2%nat
  /\ purchase_calls (events_of st (snd r)) = 2%nat
  /\ purchase_calls (events_of st (snd r)) <> 1%nat
  /\ success_notifications (events_of st (snd r)) = 1%nat.
Proof. repeat split; try reflexivity. vm_compute. discriminate. Qed.

Example rate_limited_candidate_gets_three_calls :
  let w := mkWorld (fun _ => true) (fun _ => StarsOk 1000)
             (fun _ _ _ _ => SendFloodWait 5) (fun _ _ => StreamEnd) in
  let st := Examples.state_of (Examples.config_of [mkTarget (GidInt 5) "gift" 1000 true] 1000)
              [(0%nat, Examples.entry "Toy-1" 200 1000)] in
  purchase_calls (events_of st (snd (worker_cycle w Examples.owner st))) = 3%nat.
Proof. reflexivity. Qed.

(** *** The cheapest candidate *)

Lemma insert_by_price_sorted (g : TargetGift) (l : list TargetGift) :
  StronglySorted (fun a b => tg_price a <= tg_price b) l ->
  StronglySorted (fun a b => tg_price a <= tg_price b) (insert_by_price g l)
  /\ forall x, In x (insert_by_price g l) -> x = g \/ In x l.
Proof.
  induction l as [|h t IH]; intros Hs; simpl.
  - split; [repeat constructor|]. intros x [<-|[]]. auto.
  - apply StronglySorted_inv in Hs as [Ht Hall].
    destruct (Z.leb_spec (tg_price g) (tg_price h)).
    + split.
      * constructor; [constructor; assumption|].
        constructor; [assumption|].
        rewrite List.Forall_forall in *. intros x Hx. specialize (Hall x Hx). lia.
      * intros x [<-|Hx]; auto.
    + destruct (IH Ht) as [IHs IHin]. split.
      * constructor; [assumption|].
        rewrite List.Forall_forall in *. intros x Hx.
        destruct (IHin x Hx) as [->|Hx']; [lia|apply Hall, Hx'].
      * intros x [<-|Hx]; [right; left; reflexivity|].
        destruct (IHin x Hx) as [->|Hx']; [left; reflexivity|right; right; assumption].
Qed.

Lemma sort_by_price_sorted (l : list TargetGift) :
  StronglySorted (fun a b => tg_price a <= tg_price b) (sort_by_price l).
Proof.
  induction l as [|g l IH]; simpl; [constructor|].
  apply insert_by_price_sorted, IH.
Qed.






(** C7 fails as stated: with the system active, the session live and
    no enabled target, the cycle neither stops the loop nor touches the
    ACTIVE flag nor notifies anybody; the loop just goes on. *)
Lemma no_enabled_targets_loop_goes_on :
  let w := Examples.still_world 1000 in
  let st := ExecutorExamples.idle in
  let r := worker_cycle w Examples.owner st in
  enabled_targets (disk st) = []
  /\ fst r = LoopContinue
  /\ ACTIVE (disk (snd r)) = true
  /\ events_of st (snd r) = []
  /\ fst (worker_loop w Examples.owner 25 st) = false.
Proof. repeat split; reflexivity. Qed.

(** C7, as the code has it: without enabled targets an executor cycle
    of an active system with a live session changes nothing (no flag is
    written, no notification sent) and lets the loop continue, cycle
    after cycle; the condition only keeps [start_workers] from starting
    the workers. *)
Theorem no_enabled_targets_is_waited_out (w : World) (USER_ID : Z) (st : St) :
  ACTIVE (disk st) = true ->
  session_active (session st) USER_ID = true ->
  enabled_targets (disk st) = [] ->
  worker_cycle w USER_ID st = (LoopContinue, st)
  /\ (forall fuel, worker_loop w USER_ID fuel st = (false, st))
  /\ (forall sess s, Supervisor.start_workers USER_ID (disk st) sess s = (false, s)).
Proof.
  intros Hactive Hsess Hnone.
  assert (Hcycle : worker_cycle w USER_ID st = (LoopContinue, st)).
  { unfold worker_cycle. unfold bind at 1. unfold get_valid_config, load_config.
    rewrite Hactive. cbn [negb]. unfold bind at 1. unfold is_userbot_active.
    rewrite Hsess. cbn [negb]. rewrite Hnone. reflexivity. }
  split; [assumption|]. split.
  - induction fuel as [|fuel IH]; [reflexivity|].
    cbn [worker_loop]. unfold bind at 1. rewrite Hcycle. exact IH.
  - intros sess s. unfold Supervisor.start_workers. rewrite Hactive, Hnone. cbn [negb].
    destruct (negb (session_active sess USER_ID)); [reflexivity|].
    destruct (negb (truthy_int (TARGET_USER_ID (disk st)))
              && negb (truthy_str (TARGET_CHAT_ID (disk st)))); reflexivity.
Qed.

Lemma no_enabled_targets_is_waited_out_witness :
  worker_cycle (Examples.still_world 1000) Examples.owner ExecutorExamples.idle
  = (LoopContinue, ExecutorExamples.idle)
  /\ worker_loop (Examples.still_world 1000) Examples.owner 40 ExecutorExamples.idle
     = (false, ExecutorExamples.idle)
  /\ Supervisor.start_workers Examples.owner (disk ExecutorExamples.idle)
       Examples.live_session Supervisor.initial = (false, Supervisor.initial).
Proof.
  destruct (no_enabled_targets_is_waited_out (Examples.still_world 1000) Examples.owner
              ExecutorExamples.idle) as (Hcycle & Hloop & Hstart).
  - reflexivity.
  - reflexivity.
  - reflexivity.
  - split; [exact Hcycle|]. split; [apply Hloop|apply Hstart].
Defined.

(** ** Worker supervisor *)

Module SupervisorFacts.
Import Supervisor.

Lemma not_running_empty (s : Sup) :
  are_workers_running s = false -> _running_tasks s = ∅.
Proof.
  unfold are_workers_running. intros H. apply Nat.ltb_ge in H.
  apply leibniz_equiv, size_empty_iff. lia.
Qed.

Lemma stop_workers_empty (s : Sup) : _running_tasks (stop_workers s) = ∅.
Proof.
  unfold stop_workers. destruct (are_workers_running s) eqn:Hr; [reflexivity|].
  apply not_running_empty, Hr.
Qed.

Lemma start_workers_pair (USER_ID : Z) (config : Config) (sess : Session) (s : Sup) :
  fst (start_workers USER_ID config sess s) = true ->
  exists n, _running_tasks (snd (start_workers USER_ID config sess s)) = {[n; S n]}
            /\ {[n; S n]} ⊆ pending (snd (start_workers USER_ID config sess s)).
Proof.
  unfold start_workers.
  destruct (negb (ACTIVE config)); [discriminate|].
  destruct (negb (session_active sess USER_ID)); [discriminate|].
  destruct (negb (truthy_int (TARGET_USER_ID config))
            && negb (truthy_str (TARGET_CHAT_ID config))); [discriminate|].
  destruct (enabled_targets config); [discriminate|]. intros _. cbn [snd].
  set (s1 := if are_workers_running s then stop_workers s else s).
  assert (H1 : _running_tasks s1 = ∅).
  { subst s1. destruct (are_workers_running s) eqn:Hr;
      [apply stop_workers_empty|apply not_running_empty, Hr]. }
  exists (next_task s1). cbn [_running_tasks pending]. rewrite H1. split.
  - rewrite (left_id_L ∅ (∪)). reflexivity.
  - rewrite <- (assoc_L (∪)). apply union_subseteq_r.
Qed.

Lemma size_pair (n : nat) : size ({[n; S n]} : gset nat) = 2%nat.
Proof.
  rewrite size_union.
  - rewrite !size_singleton. reflexivity.
  - apply disjoint_singleton_l. rewrite elem_of_singleton. lia.
Qed.

Lemma step_tracked_ok (s : Sup) (e : Step) : tracked_ok s -> tracked_ok (step s e).
Proof.
  intros [Hsub Hsize]. destruct e as [USER_ID config sess| |task]; simpl.
  - destruct (fst (start_workers USER_ID config sess s)) eqn:Hstart.
    + destruct (start_workers_pair USER_ID config sess s Hstart) as (n & Hrun & Hpend).
      split; rewrite Hrun; [assumption|]. rewrite size_pair. lia.
    + assert (Hsame : snd (start_workers USER_ID config sess s) = s).
      { revert Hstart. unfold start_workers.
        destruct (negb (ACTIVE config)); [reflexivity|].
        destruct (negb (session_active sess USER_ID)); [reflexivity|].
        destruct (negb (truthy_int (TARGET_USER_ID config))
                  && negb (truthy_str (TARGET_CHAT_ID config))); [reflexivity|].
        destruct (enabled_targets config); [reflexivity|discriminate]. }
      rewrite Hsame. split; assumption.
  - split; rewrite stop_workers_empty; [apply empty_subseteq|rewrite size_empty; lia].
  - unfold task_ends. destruct (decide (task ∈ pending s)); [|split; assumption].
    unfold task_done_callback. cbn [_running_tasks pending]. split.
    + intros x Hx. apply elem_of_difference in Hx as [Hx1 Hx2].
      apply elem_of_difference. split; [apply Hsub, Hx1|exact Hx2].
    + etransitivity; [|exact Hsize]. apply subseteq_size.
      intros x Hx. apply elem_of_difference in Hx as [Hx1 _]. exact Hx1.
Qed.

Lemma run_steps_tracked_ok (steps : list Step) : tracked_ok (run_steps steps).
Proof.
  unfold run_steps.
  assert (H : forall s, tracked_ok s -> tracked_ok (fold_left step steps s)).
  { induction steps as [|e steps IH]; intros s Hs; simpl; [assumption|].
    apply IH, step_tracked_ok, Hs. }
  apply H. unfold initial. split; cbn [_running_tasks pending].
  - apply empty_subseteq.
  - rewrite size_empty. lia.
Qed.

End SupervisorFacts.

(** C6 fails as stated: after a start, the purchase worker (task 0)
    finishes on its own; its done callback removes it from the tracked
    set, which is left at size 1 with the other worker (task 1) still
    running, and [are_workers_running] still answers True. *)
Lemma worker_set_left_at_one :
  let s := Supervisor.run_steps
             [Supervisor.CallStart Examples.owner (disk (ExecutorExamples.ready 100))
                Examples.live_session;
              Supervisor.TaskEnds 0] in
  size (Supervisor._running_tasks s) = 1%nat
  /\ size (Supervisor._running_tasks s) <> 0%nat
  /\ size (Supervisor._running_tasks s) <> 2%nat
  /\ Supervisor._running_tasks s = {[1%nat]}
  /\ 1%nat ∈ Supervisor.pending s
  /\ Supervisor.are_workers_running s = true.
Proof.
  assert (H : Supervisor._running_tasks
                (Supervisor.run_steps
                   [Supervisor.CallStart Examples.owner (disk (ExecutorExamples.ready 100))
                      Examples.live_session;
                    Supervisor.TaskEnds 0]) = {[1%nat]}).
  { vm_compute. reflexivity. }
  cbv zeta. unfold Supervisor.are_workers_running. rewrite H, size_singleton.
  split; [reflexivity|]. split; [discriminate|]. split; [discriminate|].
  split; [reflexivity|]. split; [|reflexivity].
  vm_compute. reflexivity.
Qed.

(** C6, as the code has it: at every point where the supervisor is not
    inside a call, the tracked set holds only tasks that are not done
    and has at most two elements; it has exactly two right after a
    successful start and none after a stop, and each tracked task that
    finishes on its own is removed by its done callback, which makes
    the set one smaller (so one worker ending alone leaves size 1). *)
Theorem tracked_set_follows_live_tasks (steps : list Supervisor.Step) :
  let s := Supervisor.run_steps steps in
  Supervisor._running_tasks s ⊆ Supervisor.pending s
  /\ (size (Supervisor._running_tasks s) <= 2)%nat
  /\ (forall USER_ID config sess,
        fst (Supervisor.start_workers USER_ID config sess s) = true ->
        size (Supervisor._running_tasks
                (snd (Supervisor.start_workers USER_ID config sess s))) = 2%nat)
  /\ size (Supervisor._running_tasks (Supervisor.stop_workers s)) = 0%nat
  /\ (forall task, task ∈ Supervisor._running_tasks s ->
        size (Supervisor._running_tasks (Supervisor.task_ends task s))
        = (size (Supervisor._running_tasks s) - 1)%nat
        /\ task ∉ Supervisor._running_tasks (Supervisor.task_ends task s)).
Proof.
  cbv zeta. destruct (SupervisorFacts.run_steps_tracked_ok steps) as [Hsub Hsize].
  split; [assumption|]. split; [assumption|]. split; [|split].
  - intros USER_ID config sess Hstart.
    destruct (SupervisorFacts.start_workers_pair USER_ID config sess _ Hstart)
      as (n & -> & _).
    apply SupervisorFacts.size_pair.
  - rewrite SupervisorFacts.stop_workers_empty. apply size_empty.
  - intros task Hin. unfold Supervisor.task_ends.
    destruct (decide (task ∈ Supervisor.pending (Supervisor.run_steps steps))) as [|Hout];
      [|exfalso; apply Hout, Hsub, Hin].
    unfold Supervisor.task_done_callback. cbn [Supervisor._running_tasks]. split.
    + rewrite size_difference by (apply singleton_subseteq_l, Hin).
      rewrite size_singleton. reflexivity.
    + intros Hx. apply elem_of_difference in Hx as [_ Hx]. apply Hx, elem_of_singleton.
      reflexivity.
Qed.

Lemma tracked_set_follows_live_tasks_witness :
  size (Supervisor._running_tasks
          (Supervisor.task_ends 0
             (Supervisor.run_steps
                [Supervisor.CallStart Examples.owner (disk (ExecutorExamples.ready 100))
                   Examples.live_session]))) = 1%nat.
Proof.
  destruct (tracked_set_follows_live_tasks
              [Supervisor.CallStart Examples.owner (disk (ExecutorExamples.ready 100))
                 Examples.live_session]) as (_ & _ & _ & _ & Hends).
  destruct (Hends 0%nat) as [Hsize _].
  - vm_compute. reflexivity.
  - rewrite Hsize. vm_compute. reflexivity.
Defined.

(** [start_workers] starts the pair exactly when the four conditions hold. *)
Lemma start_workers_when_ready (USER_ID : Z) (config : Config) (sess : Session)
    (s : Supervisor.Sup) :
  fst (Supervisor.start_workers USER_ID config sess s)
  = Supervisor.workers_ready USER_ID config sess.
Proof.
  unfold Supervisor.start_workers, Supervisor.workers_ready.
  destruct (ACTIVE config); [|reflexivity].
  destruct (session_active sess USER_ID); [|reflexivity].
  destruct (truthy_int (TARGET_USER_ID config)), (truthy_str (TARGET_CHAT_ID config));
    destruct (enabled_targets config); reflexivity.
Qed.

(** * Further properties *)

(** ** The sender session and the balance oracle *)

Lemma get_userbot_client_eq (w : World) (u : Z) (st : St) :
  get_userbot_client w u st =
  if session_active (session st) u then
    if w_get_me w (n_get_me st) then (true, after_get_me st)
    else (false, after_reset (after_get_me st))
  else (false, st).
Proof.
  unfold get_userbot_client, _reset_userbot_state, call_get_me. run.
  repeat step; reflexivity.
Qed.

Lemma get_sender_stars_balance_eq (w : World) (u : Z) (st : St) :
  get_sender_stars_balance w u st =
  if session_active (session st) u then
    if w_get_me w (n_get_me st) then
      match w_stars w (n_stars st) with
      | StarsOk b => (Some b, after_stars (after_get_me st))
      | StarsRPCError => (None, after_stars (after_get_me st))
      | StarsOtherError => (None, after_get_me (after_stars (after_get_me st)))
      end
    else (None, after_reset (after_get_me st))
  else (None, st).
Proof.
  unfold get_sender_stars_balance, get_userbot_client, _reset_userbot_state,
    call_get_me, call_get_stars_balance. run.
  repeat step; reflexivity.
Qed.

(** X1: [get_sender_stars_balance] returns a balance exactly when the
    session is active for the user, the readiness probe [get_me]
    succeeds and [get_stars_balance] returns; the value is the one the
    platform gave.  With an inactive session nothing is called at all. *)
Theorem balance_is_read_only_from_a_ready_session (w : World) (u : Z) (st : St) :
  (forall b, fst (get_sender_stars_balance w u st) = Some b <->
             session_active (session st) u = true
             /\ w_get_me w (n_get_me st) = true
             /\ w_stars w (n_stars st) = StarsOk b)
  /\ (session_active (session st) u = false ->
      get_sender_stars_balance w u st = (None, st)).
Proof.
  rewrite get_sender_stars_balance_eq. split.
  - intros b. destruct (session_active (session st) u); simpl.
    + destruct (w_get_me w (n_get_me st)); simpl.
      * destruct (w_stars w (n_stars st)) as [b'| |]; simpl; split.
        -- intros [= ->]. auto.
        -- intros (_ & _ & [= ->]). reflexivity.
        -- discriminate.
        -- intros (_ & _ & H). discriminate.
        -- discriminate.
        -- intros (_ & _ & H). discriminate.
      * split; [discriminate|]. intros (_ & H & _). discriminate.
    + split; [discriminate|]. intros (H & _). discriminate.
  - intros ->. reflexivity.
Qed.

Lemma balance_is_read_only_from_a_ready_session_witness :
  get_sender_stars_balance (Examples.still_world 900) Examples.owner
    (mkSt (Examples.config_of [] 500) [] (mkSession true true (Some 8) true) 0 0 0 0 [])
  = (None,
     mkSt (Examples.config_of [] 500) [] (mkSession true true (Some 8) true) 0 0 0 0 []).
Proof.
  apply (balance_is_read_only_from_a_ready_session (Examples.still_world 900)
           Examples.owner
           (mkSt (Examples.config_of [] 500) [] (mkSession true true (Some 8) true)
              0 0 0 0 [])).
  reflexivity.
Defined.

(** X2: a readiness probe that fails resets the session: the client is
    refused, and from then on the session is inactive for every user,
    so a reconciliation persists and returns 0 without calling the
    platform. *)
Theorem failed_probe_resets_the_session (w : World) (u : Z) (st : St) :
  session_active (session st) u = true ->
  w_get_me w (n_get_me st) = false ->
  let st1 := snd (get_userbot_client w u st) in
  fst (get_userbot_client w u st) = false
  /\ (forall u', session_active (session st1) u' = false)
  /\ (forall u', fst (get_sender_stars_balance w u' st1) = None)
  /\ (forall u',
        fst (refresh_balance w (Some u') st1) = 0
        /\ disk (snd (refresh_balance w (Some u') st1)) = set_BALANCE 0 (disk st)
        /\ n_get_me (snd (refresh_balance w (Some u') st1)) = n_get_me st1
        /\ n_stars (snd (refresh_balance w (Some u') st1)) = n_stars st).
Proof.
  intros Hact Hme. cbv zeta. rewrite get_userbot_client_eq, Hact, Hme. cbn [fst snd].
  split; [reflexivity|]. split; [reflexivity|]. split.
  - intros u'. rewrite get_sender_stars_balance_eq. reflexivity.
  - intros u'. unfold refresh_balance, refresh_balance_for, persist_zero. run.
    destruct (truthy_int (API_ID (USERBOT (disk st))) && truthy_str (API_HASH (USERBOT (disk st)))
              && truthy_str (PHONE (USERBOT (disk st)))); simpl; auto.
Qed.

Lemma failed_probe_resets_the_session_witness :
  fst (get_userbot_client
         (mkWorld (fun _ => false) (fun _ => StarsOk 900) (fun _ _ _ _ => SendOk)
            (fun _ _ => StreamEnd))
         Examples.owner (Examples.state_of (Examples.config_of [] 500) [])) = false.
Proof.
  apply (failed_probe_resets_the_session
           (mkWorld (fun _ => false) (fun _ => StarsOk 900) (fun _ _ _ _ => SendOk)
              (fun _ _ => StreamEnd))
           Examples.owner (Examples.state_of (Examples.config_of [] 500) []));
    reflexivity.
Defined.

(** X3: as long as the first change does not hit the floor of zero, two
    changes of the cached balance compose to one change by the sum; the
    balance read back from the configuration is the returned one. *)
Theorem balance_changes_add_up (d1 d2 : Z) (st : St) :
  0 <= BALANCE (USERBOT (disk st)) + d1 ->
  let st1 := snd (change_balance_userbot d1 st) in
  change_balance_userbot d2 st1 = change_balance_userbot (d1 + d2) st
  /\ fst (get_balance_from_config (snd (change_balance_userbot d2 st1)))
     = fst (change_balance_userbot (d1 + d2) st).
Proof.
  intros Hfloor. unfold change_balance_userbot, get_balance_from_config. run.
  rewrite (Z.max_r 0 (BALANCE (USERBOT (disk st)) + d1)) by assumption.
  rewrite <- Z.add_assoc. split; reflexivity.
Qed.

Lemma balance_changes_add_up_witness :
  change_balance_userbot 30
    (snd (change_balance_userbot (-50) (Examples.state_of (Examples.config_of [] 100) [])))
  = change_balance_userbot (-50 + 30) (Examples.state_of (Examples.config_of [] 100) []).
Proof.
  apply (balance_changes_add_up (-50) 30 (Examples.state_of (Examples.config_of [] 100) [])).
  simpl. lia.
Defined.

(** Past the floor the two differ: the overdrawn part is forgotten. *)
Example balance_changes_past_the_floor :
  let st := Examples.state_of (Examples.config_of [] 100) [] in
  fst (change_balance_userbot 250 (snd (change_balance_userbot (-250) st))) = 250
  /\ fst (change_balance_userbot (-250 + 250) st) = 100.
Proof. split; reflexivity. Qed.

(** ** The listing cache and the poller *)


Lemma dict_set_keys (k : nat) (e : CacheEntry) (c : Cache) :
  (forall j, In j (map fst (dict_set k e c)) <-> j = k \/ In j (map fst c))
  /\ (List.NoDup (map fst c) -> List.NoDup (map fst (dict_set k e c))).
Proof.
  induction c as [|[k' e'] c [IHin IHnd]]; simpl.
  - split; [intros j; intuition congruence|].
    intros _. apply List.NoDup_cons; [intros []|apply List.NoDup_nil].
  - destruct (Nat.eqb_spec k' k) as [->|Hk]; simpl.
    + split; [intros j; intuition congruence|auto].
    + split.
      * intros j. rewrite IHin. intuition congruence.
      * intros Hnd. apply NoDup_cons_iff in Hnd as [Hnotin Hnd].
        apply List.NoDup_cons; [|apply IHnd, Hnd].
        rewrite IHin. intros [H|H]; [congruence|contradiction].
Qed.

Lemma targets_updater_cycle_eq (w : World) (user_id : Z) (st : St) :
  targets_updater_cycle w user_id st =
  if ACTIVE (disk st) then update_all w user_id (enumerate_enabled 0 (TARGETS (disk st))) st
  else (tt, st).
Proof.
  unfold targets_updater_cycle. run. destruct (ACTIVE (disk st)); reflexivity.
Qed.

Lemma update_target_cache_keys (w : World) (user_id : Z) (idx : nat) (t : Target) (st : St) :
  List.NoDup (map fst (targets_cache st)) ->
  List.NoDup (map fst (targets_cache (snd (update_target_cache w user_id idx t st)))).
Proof.
  intros Hnd. pose proof (update_target_cache_spec w user_id idx t st) as H. cbv zeta in H.
  destruct (GIFT_ID t); try (destruct H as [_ ->]; assumption).
  destruct H as [_ ->]. apply dict_set_keys, Hnd.
Qed.

Lemma update_all_preserves (P : Cache -> Prop) (w : World) (user_id : Z) :
  (forall idx t st, P (targets_cache st) ->
                    P (targets_cache (snd (update_target_cache w user_id idx t st)))) ->
  forall ts st, P (targets_cache st) ->
                P (targets_cache (snd (update_all w user_id ts st))).
Proof.
  intros Hstep ts. induction ts as [|[idx t] ts IH]; intros st HP; simpl; [assumption|].
  unfold bind. specialize (Hstep idx t st HP).
  destruct (update_target_cache w user_id idx t st) as [g st']. apply IH, Hstep.
Qed.

Lemma cache_writes_preserve (P : Cache -> Prop) (w : World) :
  P [] ->
  (forall user_id idx t st, P (targets_cache st) ->
     P (targets_cache (snd (update_target_cache w user_id idx t st)))) ->
  forall ops st, P (targets_cache st) -> P (targets_cache (cache_writes w ops st)).
Proof.
  intros Hnil Hstep ops. unfold cache_writes.
  induction ops as [|op ops IH]; intros st HP; simpl; [assumption|].
  apply IH. destruct op as [user_id idx t|user_id|]; simpl.
  - apply Hstep, HP.
  - rewrite targets_updater_cycle_eq. destruct (ACTIVE (disk st)); [|assumption].
    apply update_all_preserves; [apply Hstep|assumption].
  - exact Hnil.
Qed.

(** X4: the cache holds at most one entry per target index, whatever
    sequence of updates, sweeps and clearings wrote it. *)
Theorem one_entry_per_target_index (w : World) (ops : list CacheWrite) (st : St) :
  List.NoDup (map fst (targets_cache st)) ->
  List.NoDup (map fst (targets_cache (cache_writes w ops st))).
Proof.
  apply (cache_writes_preserve (fun c => List.NoDup (map fst c))).
  - apply List.NoDup_nil.
  - intros user_id idx t st0. apply update_target_cache_keys.
Qed.

Lemma one_entry_per_target_index_witness :
  List.NoDup (map fst (targets_cache
                    (cache_writes PollerExamples.market
                       [WriteSweep Examples.owner;
                        WriteUpdate Examples.owner 1 PollerExamples.tight]
                       PollerExamples.start))).
Proof.
  apply (one_entry_per_target_index PollerExamples.market
           [WriteSweep Examples.owner; WriteUpdate Examples.owner 1 PollerExamples.tight]
           PollerExamples.start).
  simpl. apply List.NoDup_cons; [intros []|apply List.NoDup_nil].
Defined.



Lemma first_eligible_eligible (s : GiftStream) (seen : nat) (g : GiftData) (k : nat) :
  first_eligible s seen = Some (g, k) -> eligible g = true.
Proof.
  revert seen. induction s as [| |gift rest IH]; intros seen; simpl; try discriminate.
  destruct (eligible (normalize_resale_gift gift)) eqn:He.
  - intros [= <- _]. exact He.
  - apply IH.
Qed.

Lemma find_cheapest_eligible (w : World) (user_id gift_id limit : Z) (st : St)
    (g : GiftData) :
  fst (find_cheapest_gift_by_id w user_id gift_id (Some limit) st) = Some g ->
  eligible g = true.
Proof.
  intros Hg.
  destruct (find_cheapest_gift_by_id_spec w user_id gift_id limit st)
    as [_ [Hn|(_ & _ & _ & Hs)]]; [congruence|].
  rewrite Hs, scan_gifts_first_eligible in Hg.
  destruct (first_eligible (w_search w (n_search st) gift_id) 0) as [[g' k]|] eqn:Hf;
    simpl in Hg; [|discriminate].
  destruct (price g' <=? limit); [|discriminate].
  injection Hg as <-. eapply first_eligible_eligible, Hf.
Qed.

(** X6: the poller never caches a listing that is sold for TON only,
    has no star price, or costs nothing: every listing in the cache is
    sellable for stars at a price above zero, after any sequence of
    cache writes. *)
Theorem cached_listings_are_sellable_for_stars (w : World) (ops : list CacheWrite)
    (st : St) :
  listings_eligible (targets_cache st) ->
  listings_eligible (targets_cache (cache_writes w ops st))
  /\ forall tg, In tg (fst (get_all_available_target_gifts (cache_writes w ops st))) ->
                available_for_stars (tg_gift tg) = true /\ 0 < tg_price tg.
Proof.
  intros Hok.
  assert (H : listings_eligible (targets_cache (cache_writes w ops st))).
  { revert ops st Hok. apply (cache_writes_preserve listings_eligible).
    - constructor.
    - intros user_id idx t st0 H0.
      pose proof (update_target_cache_spec w user_id idx t st0) as H. cbv zeta in H.
      destruct (GIFT_ID t) as [| |gid]; try (destruct H as [_ ->]; assumption).
      destruct H as [Hf ->]. unfold listings_eligible in *.
      assert (He : forall g, fst (update_target_cache w user_id idx t st0) = Some g ->
                             eligible g = true).
      { intros g Hg. rewrite Hf in Hg. eapply find_cheapest_eligible, Hg. }
      revert He. generalize (fst (update_target_cache w user_id idx t st0)) as res.
      intros res He. induction (targets_cache st0) as [|[k' e'] c IH]; simpl.
      + constructor; [exact He|constructor].
      + apply Forall_cons_iff in H0 as [H1 H2]. destruct (Nat.eqb k' idx).
        * constructor; [exact He|exact H2].
        * constructor; [exact H1|apply IH, H2]. }
  split; [assumption|].
  intros tg Hin. unfold get_all_available_target_gifts in Hin. cbn [fst] in Hin.
  assert (Hsrc : In tg (available_of_cache (targets_cache (cache_writes w ops st)))).
  { clear -Hin. revert Hin.
    induction (available_of_cache (targets_cache (cache_writes w ops st))) as [|a l IH];
      simpl; [auto|].
    intros Hin.
    destruct (proj2 (insert_by_price_sorted a (sort_by_price l) (sort_by_price_sorted l))
                tg Hin) as [->|Hl]; auto. }
  clear Hin. unfold listings_eligible in H.
  induction (targets_cache (cache_writes w ops st)) as [|[k e] c IH]; simpl in Hsrc;
    [contradiction|].
  apply Forall_cons_iff in H as [He Hc]. simpl in He.
  destruct (gift_data e) as [g|] eqn:Hg.
  - destruct Hsrc as [<-|Hsrc]; [|apply IH; assumption].
    unfold tg_price. simpl. specialize (He g eq_refl). unfold eligible in He.
    apply andb_true_iff in He as [Ha Hp]. split; [assumption|].
    apply Z.gtb_lt in Hp. lia.
  - apply IH; assumption.
Qed.

Lemma cached_listings_are_sellable_for_stars_witness :
  listings_eligible (targets_cache
                       (cache_writes PollerExamples.market [WriteSweep Examples.owner]
                          PollerExamples.start)).
Proof.
  apply (cached_listings_are_sellable_for_stars PollerExamples.market
           [WriteSweep Examples.owner] PollerExamples.start).
  simpl. repeat constructor. intros g [= <-]. reflexivity.
Defined.










Lemma insert_by_price_perm (g : TargetGift) (l : list TargetGift) :
  Permutation (insert_by_price g l) (g :: l).
Proof.
  induction l as [|h t IH]; simpl; [reflexivity|].
  destruct (tg_price g <=? tg_price h); [reflexivity|].
  rewrite IH. apply perm_swap.
Qed.

Lemma sort_by_price_perm (l : list TargetGift) : Permutation (sort_by_price l) l.
Proof.
  induction l as [|g l IH]; simpl; [reflexivity|].
  rewrite insert_by_price_perm, IH. reflexivity.
Qed.

Lemma available_of_cache_length (c : Cache) :
  length (available_of_cache c) = length (List.filter (fun kv => has_gift (snd kv)) c).
Proof.
  induction c as [|[k e] c IH]; simpl; [reflexivity|].
  unfold has_gift. simpl. destruct (gift_data e); simpl; rewrite IH; reflexivity.
Qed.

Lemma available_of_cache_In (c : Cache) (tg : TargetGift) :
  In tg (available_of_cache c) <->
  In (target_index tg,
      mkCacheEntry (Some (tg_gift tg))
        (mkTargetInfo (target_gift_id tg) (target_gift_name tg) (target_max_price tg))) c.
Proof.
  induction c as [|[k e] c IH]; simpl; [reflexivity|].
  destruct e as [[g|] [gid gname gmax]]; simpl.
  - rewrite IH. split.
    + intros [<-|H]; [left; reflexivity|right; exact H].
    + intros [H|H]; [left|right; exact H].
      injection H as -> -> -> -> ->. destruct tg; reflexivity.
  - rewrite IH. split; [auto|]. intros [H|H]; [discriminate|exact H].
Qed.

(** X9: [get_all_available_target_gifts] returns the listings of the
    cache, each with the snapshot of its own entry, none lost and none
    added, in non-decreasing order of price; the cache is not changed. *)
Theorem available_gifts_are_the_cached_listings_by_price (st : St) :
  let r := get_all_available_target_gifts st in
  snd r = st
  /\ StronglySorted (fun a b => tg_price a <= tg_price b) (fst r)
  /\ Permutation (fst r) (available_of_cache (targets_cache st))
  /\ forall tg, In tg (fst r) <->
       In (target_index tg,
           mkCacheEntry (Some (tg_gift tg))
             (mkTargetInfo (target_gift_id tg) (target_gift_name tg)
                (target_max_price tg)))
          (targets_cache st).
Proof.
  cbv zeta. unfold get_all_available_target_gifts. cbn [fst snd].
  split; [reflexivity|]. split; [apply sort_by_price_sorted|].
  split; [apply sort_by_price_perm|].
  intros tg. rewrite <- available_of_cache_In. split; intros H.
  - eapply Permutation_in; [apply sort_by_price_perm|exact H].
  - eapply Permutation_in; [symmetry; apply sort_by_price_perm|exact H].
Qed.

(** X10: the statistics of the cache agree with what the executor is
    offered: "with_gifts" is the number of candidates returned by
    [get_all_available_target_gifts], it never exceeds "total_targets",
    and there is one detail per entry. *)
Theorem cache_stats_count_the_candidates (st : St) :
  let stats := fst (get_cache_stats st) in
  with_gifts stats = length (fst (get_all_available_target_gifts st))
  /\ (with_gifts stats <= total_targets stats)%nat
  /\ length (targets_details stats) = total_targets stats
  /\ (with_gifts stats = 0%nat <-> fst (get_all_available_target_gifts st) = [])
  /\ snd (get_cache_stats st) = st.
Proof.
  cbv zeta. unfold get_cache_stats, get_all_available_target_gifts.
  cbn [fst snd with_gifts total_targets targets_details].
  assert (Hlen : length (sort_by_price (available_of_cache (targets_cache st)))
                 = length (List.filter (fun kv => has_gift (snd kv)) (targets_cache st))).
  { rewrite (Permutation_length (sort_by_price_perm _)). apply available_of_cache_length. }
  split; [symmetry; exact Hlen|]. split; [apply List.filter_length_le|].
  split; [apply List.length_map|]. split; [|reflexivity].
  rewrite <- Hlen. split.
  - intros H. destruct (sort_by_price _); [reflexivity|discriminate].
  - intros ->. reflexivity.
Qed.

(** ** Buying *)

Lemma get_userbot_client_probed (w : World) (u : Z) (st : St) :
  only_probed st (snd (get_userbot_client w u st))
  /\ n_stars (snd (get_userbot_client w u st)) = n_stars st.
Proof.
  rewrite get_userbot_client_eq. unfold only_probed.
  destruct (session_active (session st) u); [|repeat split].
  destruct (w_get_me w (n_get_me st)); repeat split.
Qed.

Lemma get_sender_stars_balance_probed (w : World) (u : Z) (st : St) :
  only_probed st (snd (get_sender_stars_balance w u st))
  /\ forall b, fst (get_sender_stars_balance w u st) = Some b ->
               w_stars w (n_stars st) = StarsOk b
               /\ n_stars (snd (get_sender_stars_balance w u st)) = S (n_stars st).
Proof.
  rewrite get_sender_stars_balance_eq. unfold only_probed.
  destruct (session_active (session st) u); [|repeat split; discriminate].
  destruct (w_get_me w (n_get_me st)); [|repeat split; discriminate].
  destruct (w_stars w (n_stars st)) as [b'| |]; repeat split; try discriminate.
  all: injection H as ->; reflexivity.
Qed.

Lemma purchase_attempts_outcome (w : World) (attempts : nat) (u : Z) (gift_link : string)
    (recipient : Recipient) (expected_price cached_balance balance_before : Z) (st : St) :
  attempts_outcome w gift_link recipient expected_price cached_balance balance_before
    attempts st
    (purchase_attempts w attempts u gift_link recipient expected_price cached_balance
       balance_before st).
Proof.
  revert st. induction attempts as [|n IH]; intros st.
  - exists 0%nat. simpl. rewrite app_nil_r, Nat.add_0_r.
    repeat split; try reflexivity; discriminate.
  - cbn [purchase_attempts]. unfold bind at 1. unfold call_send_resold_gift at 1.
    set (e := EvSend gift_link recipient expected_price).
    set (st1 := mkSt (disk st) (targets_cache st) (session st) (n_get_me st)
                  (n_stars st) (S (n_send st)) (n_search st) (trace st ++ [e])).
    assert (Hcont : forall st2, only_probed st1 st2 ->
              attempts_outcome w gift_link recipient expected_price cached_balance
                balance_before (S n) st
                (purchase_attempts w n u gift_link recipient expected_price
                   cached_balance balance_before st2)).
    { intros st2 (Hd & Hc & Ht & Hn & Hs).
      destruct (IH st2) as (k & Hk & Htr & Hns & Hca & Hse & Hfalse & Htrue).
      exists (S k). fold e in Htr. fold e.
      rewrite Htr, Hns, Hca, Hse, Ht, Hn, Hc, Hs, Hd in *. subst st1. cbn [trace n_send
        targets_cache n_search disk] in *.
      split; [lia|]. split; [rewrite <- app_assoc; reflexivity|].
      split; [lia|]. split; [reflexivity|]. split; [reflexivity|].
      split; [exact Hfalse|exact Htrue]. }
    assert (Hstop : forall st2, only_probed st1 st2 ->
              attempts_outcome w gift_link recipient expected_price cached_balance
                balance_before (S n) st (false, st2)).
    { intros st2 (Hd & Hc & Ht & Hn & Hs). exists 1%nat. fold e. cbn [fst snd].
      rewrite Hd, Hc, Ht, Hn, Hs. subst st1. cbn [trace n_send targets_cache n_search disk].
      split; [lia|]. split; [reflexivity|]. split; [lia|].
      repeat split; try reflexivity. discriminate. }
    assert (Hrefl : only_probed st1 st1) by (repeat split).
    destruct (w_send w (n_send st) gift_link recipient expected_price) eqn:Hsend;
      try (apply Hcont; exact Hrefl); try (unfold ret; apply Hstop; exact Hrefl).
    unfold bind at 1.
    destruct (get_sender_stars_balance_probed w u st1) as [Hprobed Hread].
    destruct (get_sender_stars_balance w u st1) as [[balance_after|] st2];
      cbn [fst snd] in *; [|apply Hcont; exact Hprobed].
    destruct (Hread balance_after eq_refl) as [Hstars Hnstars].
    destruct (classify_delta (balance_before - balance_after) expected_price) eqn:Hclass;
      [| |apply Hcont; exact Hprobed].
    all: destruct Hprobed as (Hd & Hc & Ht & Hn & Hs);
      unfold change_balance_userbot; run;
      exists 1%nat; fold e; rewrite Hd, Hc, Ht, Hn, Hs, Hnstars; subst st1;
      cbn [fst snd trace n_send targets_cache n_search disk n_stars Nat.pred] in *;
      (split; [lia|]); (split; [reflexivity|]); (split; [lia|]);
      (split; [reflexivity|]); (split; [reflexivity|]); (split; [discriminate|]);
      intros _; exists balance_after;
      (split; [exact Hstars|]); (split; [rewrite Hclass; discriminate|]);
      (split; [reflexivity|exact Hsend]).
Qed.

Lemma only_probed_trans (a b c : St) : only_probed a b -> only_probed b c -> only_probed a c.
Proof.
  unfold only_probed. intros (H1 & H2 & H3 & H4 & H5) (K1 & K2 & K3 & K4 & K5).
  repeat split; congruence.
Qed.

Lemma buy_resold_gift_userbot_cases (w : World) (u : Z) (gift_link : string)
    (target_user_id : option Z) (target_chat_id : option string) (expected_price : Z)
    (retries : nat) (st : St) :
  let res := buy_resold_gift_userbot w u gift_link target_user_id target_chat_id
               expected_price retries st in
  (BALANCE (USERBOT (disk st)) < expected_price
   /\ res = (false, snd (save_config (set_UB_ENABLED false (disk st)) st)))
  \/ (expected_price <= BALANCE (USERBOT (disk st))
      /\ ((fst res = false /\ only_probed st (snd res))
          \/ exists recipient balance_before st0,
               recipient_of target_user_id target_chat_id = Some recipient
               /\ only_probed st st0
               /\ res = purchase_attempts w retries u gift_link recipient expected_price
                          (BALANCE (USERBOT (disk st))) balance_before st0)).
Proof.
  cbv zeta.
  remember (buy_resold_gift_userbot w u gift_link target_user_id target_chat_id
              expected_price retries st) as res eqn:Hres.
  revert Hres. unfold buy_resold_gift_userbot. unfold bind at 1.
  unfold get_valid_config, load_config.
  destruct (Z.ltb_spec (BALANCE (USERBOT (disk st))) expected_price) as [Hlow|Hok].
  { intros ->. left. split; [exact Hlow|]. run. reflexivity. }
  unfold bind at 1.
  destruct (get_userbot_client_probed w u st) as [Hcl _].
  destruct (get_userbot_client w u st) as [client st1]. cbn [snd] in Hcl.
  destruct client; cbn [negb];
    [|intros ->; right; split; [exact Hok|]; left; unfold ret; cbn [fst snd]; auto].
  destruct (recipient_of target_user_id target_chat_id) as [recipient|];
    [|intros ->; right; split; [exact Hok|]; left; unfold ret; cbn [fst snd]; auto].
  unfold bind at 1.
  destruct (get_sender_stars_balance_probed w u st1) as [Hbal _].
  destruct (get_sender_stars_balance w u st1) as [[balance_before|] st2];
    cbn [snd] in Hbal; intros ->; right; (split; [exact Hok|]).
  - right. exists recipient, balance_before, st2. split; [reflexivity|].
    split; [|reflexivity]. exact (only_probed_trans _ _ _ Hcl Hbal).
  - left. unfold ret. cbn [fst snd]. split; [reflexivity|].
    exact (only_probed_trans _ _ _ Hcl Hbal).
Qed.

(** X11: a purchase reported as successful was accepted by the platform
    for the configured recipient, was covered by the cached balance, and
    leaves in the configuration exactly the balance measured after the
    accepted call (never below zero); nothing else of the configuration
    is changed. *)
Theorem successful_purchase_records_the_measured_balance (w : World) (u : Z)
    (gift_link : string) (target_user_id : option Z) (target_chat_id : option string)
    (expected_price : Z) (retries : nat) (st : St) :
  let res := buy_resold_gift_userbot w u gift_link target_user_id target_chat_id
               expected_price retries st in
  fst res = true ->
  exists recipient balance_after,
    recipient_of target_user_id target_chat_id = Some recipient
    /\ expected_price <= BALANCE (USERBOT (disk st))
    /\ w_send w (Nat.pred (n_send (snd res))) gift_link recipient expected_price = SendOk
    /\ w_stars w (Nat.pred (n_stars (snd res))) = StarsOk balance_after
    /\ disk (snd res) = set_BALANCE (Z.max 0 balance_after) (disk st).
Proof.
  cbv zeta. intros Hres.
  destruct (buy_resold_gift_userbot_cases w u gift_link target_user_id target_chat_id
              expected_price retries st) as [[_ Heq]|[Hok [[Hfalse _]|Hrun]]].
  - rewrite Heq in Hres. discriminate.
  - congruence.
  - destruct Hrun as (recipient & balance_before & st0 & Hrec & Hprobed & Heq).
    rewrite Heq in *.
    destruct (purchase_attempts_outcome w retries u gift_link recipient expected_price
                (BALANCE (USERBOT (disk st))) balance_before st0)
      as (k & _ & _ & _ & _ & _ & _ & Htrue).
    destruct (Htrue Hres) as (balance_after & Hstars & _ & Hdisk & Hsend).
    destruct Hprobed as (Hd & _).
    exists recipient, balance_after. repeat split; try assumption.
    rewrite Hdisk, Hd. f_equal. lia.
Qed.

Lemma successful_purchase_records_the_measured_balance_witness :
  exists recipient balance_after,
    recipient_of (Some 42) None = Some recipient
    /\ 150 <= BALANCE (USERBOT (disk (ExecutorExamples.ready 1000)))
    /\ w_send BuyExamples.paying
         (Nat.pred (n_send (snd (buy_resold_gift_userbot BuyExamples.paying Examples.owner
                                   (Examples.nft "Toy-2") (Some 42) None 150 3
                                   (ExecutorExamples.ready 1000)))))
         (Examples.nft "Toy-2") recipient 150 = SendOk
    /\ w_stars BuyExamples.paying
         (Nat.pred (n_stars (snd (buy_resold_gift_userbot BuyExamples.paying Examples.owner
                                    (Examples.nft "Toy-2") (Some 42) None 150 3
                                    (ExecutorExamples.ready 1000)))))
       = StarsOk balance_after
    /\ disk (snd (buy_resold_gift_userbot BuyExamples.paying Examples.owner
                    (Examples.nft "Toy-2") (Some 42) None 150 3
                    (ExecutorExamples.ready 1000)))
       = set_BALANCE (Z.max 0 balance_after) (disk (ExecutorExamples.ready 1000)).
Proof.
  apply (successful_purchase_records_the_measured_balance BuyExamples.paying Examples.owner
           (Examples.nft "Toy-2") (Some 42) None 150 3 (ExecutorExamples.ready 1000)).
  reflexivity.
Defined.


Lemma buy_reaches_attempts (w : World) (u : Z) (gift_link : string)
    (target_user_id : option Z) (target_chat_id : option string) (expected_price : Z)
    (retries : nat) (st : St) (recipient : Recipient) (balance_before : Z) :
  purchase_reached w u target_user_id target_chat_id expected_price st recipient
    balance_before ->
  buy_resold_gift_userbot w u gift_link target_user_id target_chat_id expected_price
    retries st
  = purchase_attempts w retries u gift_link recipient expected_price
      (BALANCE (USERBOT (disk st))) balance_before (at_first_attempt st).
Proof.
  intros (Hbal & Hact & Hme & Hrec & Hme2 & Hstars).
  unfold buy_resold_gift_userbot. unfold bind at 1.
  unfold get_valid_config, load_config.
  destruct (Z.ltb_spec (BALANCE (USERBOT (disk st))) expected_price); [lia|].
  unfold bind at 1. rewrite get_userbot_client_eq, Hact, Hme. cbn [negb]. rewrite Hrec.
  unfold bind at 1. rewrite get_sender_stars_balance_eq.
  change (session (after_get_me st)) with (session st).
  change (n_get_me (after_get_me st)) with (S (n_get_me st)).
  change (n_stars (after_get_me st)) with (n_stars st).
  rewrite Hact, Hme2, Hstars. reflexivity.
Qed.

Lemma after_sends_S (k : nat) (e : Event) (st : St) :
  after_sends k e
    (mkSt (disk st) (targets_cache st) (session st) (n_get_me st) (n_stars st)
       (S (n_send st)) (n_search st) (trace st ++ [e]))
  = after_sends (S k) e st.
Proof.
  unfold after_sends. cbn [disk targets_cache session n_get_me n_stars n_send n_search
    trace repeat]. rewrite <- app_assoc. f_equal. lia.
Qed.

Lemma purchase_attempts_retriable (w : World) (attempts : nat) (u : Z) (gift_link : string)
    (recipient : Recipient) (expected_price cached_balance balance_before : Z) (st : St) :
  (forall j, (j < attempts)%nat ->
     retriable_error (w_send w (n_send st + j) gift_link recipient expected_price) = true) ->
  purchase_attempts w attempts u gift_link recipient expected_price cached_balance
    balance_before st
  = (false, after_sends attempts (EvSend gift_link recipient expected_price) st).
Proof.
  revert st. induction attempts as [|n IH]; intros st Hall.
  - unfold after_sends. simpl. rewrite app_nil_r, Nat.add_0_r. destruct st; reflexivity.
  - cbn [purchase_attempts]. unfold bind at 1. unfold call_send_resold_gift at 1.
    pose proof (Hall 0%nat ltac:(lia)) as H0. rewrite Nat.add_0_r in H0.
    set (st1 := mkSt (disk st) (targets_cache st) (session st) (n_get_me st)
                  (n_stars st) (S (n_send st)) (n_search st)
                  (trace st ++ [EvSend gift_link recipient expected_price])).
    assert (Hnext : purchase_attempts w n u gift_link recipient expected_price
                      cached_balance balance_before st1
                    = (false, after_sends (S n)
                                (EvSend gift_link recipient expected_price) st)).
    { rewrite IH; [subst st1; rewrite after_sends_S; reflexivity|].
      intros j Hj. subst st1. cbn [n_send].
      replace (S (n_send st) + j)%nat with (n_send st + S j)%nat by lia.
      apply Hall. lia. }
    destruct (w_send w (n_send st) gift_link recipient expected_price);
      try discriminate; exact Hnext.
Qed.

(** X13: when the checks before the first purchase call pass and the
    platform answers that call with a bad request, a refusal or a lost
    authorisation, the purchase fails after exactly one call whatever
    number of retries is allowed, and the configuration is not changed. *)
Theorem refused_call_is_not_retried (w : World) (u : Z) (gift_link : string)
    (target_user_id : option Z) (target_chat_id : option string) (expected_price : Z)
    (retries : nat) (st : St) (recipient : Recipient) (balance_before : Z) :
  purchase_reached w u target_user_id target_chat_id expected_price st recipient
    balance_before ->
  (0 < retries)%nat ->
  non_retriable (w_send w (n_send st) gift_link recipient expected_price) = true ->
  buy_resold_gift_userbot w u gift_link target_user_id target_chat_id expected_price
    retries st
  = (false, after_sends 1 (EvSend gift_link recipient expected_price)
              (at_first_attempt st)).
Proof.
  intros Hreached Hpos Hrefused. rewrite (buy_reaches_attempts _ _ _ _ _ _ _ _ _ _ Hreached).
  destruct retries as [|n]; [lia|].
  cbn [purchase_attempts]. unfold bind at 1. unfold call_send_resold_gift at 1.
  change (n_send (at_first_attempt st)) with (n_send st).
  destruct (w_send w (n_send st) gift_link recipient expected_price);
    try discriminate; unfold ret, after_sends; cbn [repeat]; f_equal; f_equal;
    change (n_send (at_first_attempt st)) with (n_send st); lia.
Qed.

Lemma refused_call_is_not_retried_witness :
  buy_resold_gift_userbot BuyExamples.refusing Examples.owner (Examples.nft "Toy-2")
    (Some 42) None 150 3 (ExecutorExamples.ready 1000)
  = (false, after_sends 1 (EvSend (Examples.nft "Toy-2") (ToUser 42) 150)
              (at_first_attempt (ExecutorExamples.ready 1000))).
Proof.
  apply (refused_call_is_not_retried BuyExamples.refusing Examples.owner
           (Examples.nft "Toy-2") (Some 42) None 150 3 (ExecutorExamples.ready 1000)
           (ToUser 42) 1000).
  - repeat split; try reflexivity. simpl. lia.
  - lia.
  - reflexivity.
Defined.

(** X14: when the checks before the first purchase call pass and the
    platform answers every call with a flood wait, an RPC error or an
    unexpected exception, the purchase fails after exactly [retries]
    calls for the same link, and the configuration is not changed. *)
Theorem transient_errors_use_every_attempt (w : World) (u : Z) (gift_link : string)
    (target_user_id : option Z) (target_chat_id : option string) (expected_price : Z)
    (retries : nat) (st : St) (recipient : Recipient) (balance_before : Z) :
  purchase_reached w u target_user_id target_chat_id expected_price st recipient
    balance_before ->
  (forall j, (j < retries)%nat ->
     retriable_error (w_send w (n_send st + j) gift_link recipient expected_price) = true) ->
  buy_resold_gift_userbot w u gift_link target_user_id target_chat_id expected_price
    retries st
  = (false, after_sends retries (EvSend gift_link recipient expected_price)
              (at_first_attempt st)).
Proof.
  intros Hreached Hall. rewrite (buy_reaches_attempts _ _ _ _ _ _ _ _ _ _ Hreached).
  apply purchase_attempts_retriable. exact Hall.
Qed.

Lemma transient_errors_use_every_attempt_witness :
  buy_resold_gift_userbot BuyExamples.flooding Examples.owner (Examples.nft "Toy-2")
    (Some 42) None 150 3 (ExecutorExamples.ready 1000)
  = (false, after_sends 3 (EvSend (Examples.nft "Toy-2") (ToUser 42) 150)
              (at_first_attempt (ExecutorExamples.ready 1000))).
Proof.
  apply (transient_errors_use_every_attempt BuyExamples.flooding Examples.owner
           (Examples.nft "Toy-2") (Some 42) None 150 3 (ExecutorExamples.ready 1000)
           (ToUser 42) 1000).
  - repeat split; try reflexivity. simpl. lia.
  - intros j _. reflexivity.
Defined.

(** X15: a candidate accepted by [validate_gift_purchase] is exactly one
    for which [buy_resold_gift_userbot] finds a recipient (one of user
    id and chat name, not both), with a price above zero and within the
    limit, a name, and a link of the NFT form. *)
Theorem validated_purchase_has_one_recipient (gift_data : TargetGift)
    (target_user_id : option Z) (target_chat_id : option string) (max_price : Z) :
  validate_gift_purchase gift_data target_user_id target_chat_id max_price = true
  <-> (recipient_of target_user_id target_chat_id <> None
       /\ 0 < tg_price gift_data <= max_price
       /\ String.prefix "https://t.me/nft/" (link (tg_gift gift_data)) = true
       /\ name (tg_gift gift_data) <> ""%string).
Proof.
  unfold validate_gift_purchase, recipient_of, tg_price.
  destruct (String.eqb_spec (name (tg_gift gift_data)) "") as [Hname|Hname].
  { rewrite orb_true_r. split; [discriminate|]. intros (_ & _ & _ & H). contradiction. }
  rewrite orb_false_r.
  destruct (String.eqb_spec (link (tg_gift gift_data)) "") as [Hlink|Hlink].
  { cbn [orb]. rewrite Hlink. split; [discriminate|]. intros (_ & _ & H & _).
    discriminate. }
  cbn [orb].
  destruct (Z.eqb_spec (price (tg_gift gift_data)) 0) as [Hz|Hz].
  { split; [discriminate|]. lia. }
  destruct (Z.leb_spec (price (tg_gift gift_data)) 0) as [Hle|Hpos].
  { split; [discriminate|]. lia. }
  rewrite Z.gtb_ltb.
  destruct (Z.ltb_spec max_price (price (tg_gift gift_data))) as [Hgt|Hin].
  { split; [discriminate|]. lia. }
  destruct target_user_id as [uid|], target_chat_id as [chat|]; cbn [truthy_int truthy_str].
  all: try destruct (uid =? 0); try destruct (String.eqb chat ""); cbn [negb andb].
  all: try (split; [discriminate|]; intros (H & _); contradiction).
  all: destruct (String.prefix "https://t.me/nft/" (link (tg_gift gift_data)));
    cbn [negb]; split; try discriminate; try (intros (_ & _ & H & _); discriminate).
  all: intros _; repeat split; try assumption; try lia; discriminate.
Qed.

Lemma update_target_cache_frame (w : World) (user_id : Z) (idx : nat) (t : Target)
    (st : St) :
  let st' := snd (update_target_cache w user_id idx t st) in
  poller_frame st st'
  /\ (n_search st <= n_search st' <= S (n_search st))%nat.
Proof.
  cbv zeta. unfold poller_frame, update_target_cache.
  destruct (GIFT_ID t) as [| |gift_id].
  1, 2: unfold ret; cbn [snd]; repeat split; lia.
  unfold find_cheapest_gift_by_id, get_userbot_client, _reset_userbot_state,
    call_get_me, call_search_gifts_for_resale. run.
  repeat step; repeat split; lia.
Qed.

Lemma update_all_frame (w : World) (user_id : Z) (ts : list (nat * Target)) (st : St) :
  let st' := snd (update_all w user_id ts st) in
  poller_frame st st'
  /\ (n_search st <= n_search st' <= n_search st + length ts)%nat.
Proof.
  cbv zeta. revert st. induction ts as [|[idx t] ts IH]; intros st.
  - unfold poller_frame. simpl. repeat split; lia.
  - cbn [update_all length]. unfold bind.
    destruct (update_target_cache_frame w user_id idx t st) as [(H1 & H2 & H3 & H4) H5].
    destruct (update_target_cache w user_id idx t st) as [g st1]. cbn [snd] in *.
    destruct (IH st1) as [(K1 & K2 & K3 & K4) K5].
    unfold poller_frame. repeat split; try congruence; lia.
Qed.

Lemma enumerate_enabled_length (n : nat) (ts : list Target) :
  length (enumerate_enabled n ts) = length (List.filter ENABLED ts).
Proof.
  revert n. induction ts as [|t ts IH]; intros n; simpl; [reflexivity|].
  destruct (ENABLED t); simpl; rewrite IH; reflexivity.
Qed.

(** X16: a sweep of the poller writes nothing but the cache: the
    configuration, the messages and purchase calls and the balance calls
    are as before; and it searches the market at most once for each
    enabled target. *)
Theorem sweep_only_searches_and_caches (w : World) (user_id : Z) (st : St) :
  let st' := snd (targets_updater_cycle w user_id st) in
  poller_frame st st'
  /\ (n_search st <= n_search st' <= n_search st + length (enabled_targets (disk st)))%nat.
Proof.
  cbv zeta. rewrite targets_updater_cycle_eq.
  destruct (ACTIVE (disk st)).
  - unfold enabled_targets. rewrite <- (enumerate_enabled_length 0). apply update_all_frame.
  - unfold poller_frame. cbn [snd]. repeat split; lia.
Qed.

Lemma config_narrowed_refl (c : Config) : config_narrowed c c.
Proof.
  exists (ACTIVE c), (BALANCE (USERBOT c)), (UB_ENABLED (USERBOT c)).
  destruct c as [? ? ? ? ? ? []]. repeat split; auto.
Qed.










Lemma emit_executor_frame (e : Event) (st : St) : executor_frame st (snd (emit e st)).
Proof. repeat split. apply config_narrowed_refl. Qed.






(** ** Gift types on resale *)

Lemma find_gift_type_found (validated_id : Z) (available_gifts : list BaseGift)
    (gift : BaseGift) :
  find_gift_type validated_id available_gifts = Some gift ->
  In gift available_gifts /\ bg_id gift = Some validated_id.
Proof.
  induction available_gifts as [|g rest IH]; simpl; [discriminate|].
  unfold same_id at 1. destruct (bg_id g) as [i|] eqn:Hid.
  - destruct (Z.eqb_spec i validated_id) as [->|_].
    + intros [= <-]. auto.
    + intros H. destruct (IH H). auto.
  - intros H. destruct (IH H). auto.
Qed.

Lemma resale_entries_In (available_gifts : list BaseGift) (gift : BaseGift)
    (e : option Z * string * Z) :
  In gift available_gifts -> resale_entry gift = Some e ->
  In e (resale_entries available_gifts).
Proof.
  intros Hin He. induction available_gifts as [|g rest IH]; simpl; [contradiction|].
  destruct Hin as [->|Hin].
  - rewrite He. left. reflexivity.
  - destruct (resale_entry g); [right|]; apply IH, Hin.
Qed.

Lemma check_gift_availability_cases (w : World) (gifts : option (list BaseGift))
    (user_id : Z) (gift_id : GiftIdField) (st : St) :
  let r := fst (check_gift_availability w gifts user_id gift_id st) in
  (available r = false /\ total_found r = 0 /\ error r <> None /\ found_gift_name r = None)
  \/ exists validated_id available_gifts gift,
       validate_gift_id gift_id = Some validated_id
       /\ UB_ENABLED (USERBOT (disk st)) = true
       /\ session_active (session st) user_id = true
       /\ w_get_me w (n_get_me st) = true
       /\ gifts = Some available_gifts
       /\ find_gift_type validated_id available_gifts = Some gift
       /\ available_resale_amount gift = Some (total_found r)
       /\ 0 < total_found r
       /\ r = mkAvailability true None (total_found r) (Some (title_or "Unknown" gift)).
Proof.
  cbv zeta.
  assert (Hno : forall e (s : St),
            let r := fst (ret (unavailable e) s) in
            available r = false /\ total_found r = 0 /\ error r <> None
            /\ found_gift_name r = None).
  { intros e s. cbn. repeat split. discriminate. }
  remember (check_gift_availability w gifts user_id gift_id st) as res eqn:Hres.
  revert Hres. unfold check_gift_availability.
  destruct (validate_gift_id gift_id) as [validated_id|]; [|intros ->; left; apply Hno].
  unfold bind at 1. unfold get_valid_config, load_config.
  destruct (UB_ENABLED (USERBOT (disk st))) eqn:Hen; cbn [negb];
    [|intros ->; left; apply Hno].
  unfold bind at 1. rewrite get_userbot_client_eq.
  destruct (session_active (session st) user_id) eqn:Hact; cbn [negb];
    [|intros ->; left; apply Hno].
  destruct (w_get_me w (n_get_me st)) eqn:Hme; cbn [negb]; [|intros ->; left; apply Hno].
  destruct gifts as [available_gifts|]; [|intros ->; left; apply Hno].
  destruct (find_gift_type validated_id available_gifts) as [gift|] eqn:Hfind;
    [|intros ->; left; apply Hno].
  destruct (available_resale_amount gift) as [resale_amount|] eqn:Hamount;
    [|intros ->; left; apply Hno].
  destruct (Z.eqb_spec resale_amount 0) as [Hz|Hz]; cbn [orb];
    [intros ->; left; apply Hno|].
  destruct (Z.leb_spec resale_amount 0) as [Hle|Hpos]; [intros ->; left; apply Hno|].
  intros ->. right. exists validated_id, available_gifts, gift. cbn. repeat split; auto.
Qed.

(** X18: [check_gift_availability] reports a gift type available only
    for an id of at least 1000000000, with the sender enabled and its
    client answering, and then from the first gift type of the platform
    with that id: "total_found" is its resale amount, which is above
    zero, and "gift_name" its title; every other answer carries an
    error and a "total_found" of 0. *)
Theorem availability_is_read_from_the_first_matching_type (w : World)
    (gifts : option (list BaseGift)) (user_id : Z) (gift_id : GiftIdField) (st : St) :
  let r := fst (check_gift_availability w gifts user_id gift_id st) in
  (available r = false -> total_found r = 0 /\ error r <> None)
  /\ (available r = true ->
      exists id available_gifts gift,
        gift_id = GidInt id /\ 1000000000 <= id
        /\ UB_ENABLED (USERBOT (disk st)) = true
        /\ gifts = Some available_gifts
        /\ find_gift_type id available_gifts = Some gift
        /\ bg_id gift = Some id
        /\ available_resale_amount gift = Some (total_found r)
        /\ 0 < total_found r
        /\ error r = None
        /\ found_gift_name r = Some (title_or "Unknown" gift)).
Proof.
  cbv zeta.
  destruct (check_gift_availability_cases w gifts user_id gift_id st)
    as [(Hav & Htot & Herr & _)|(id & available_gifts & gift & Hid & Hen & _ & _ & Hg
                                  & Hfind & Hamount & Hpos & Hr)].
  - split; [auto|]. congruence.
  - split; [rewrite Hr; discriminate|]. intros _.
    exists id, available_gifts, gift.
    assert (Hgid : gift_id = GidInt id /\ 1000000000 <= id).
    { unfold validate_gift_id in Hid. destruct gift_id as [| |z]; try discriminate.
      destruct (Z.ltb_spec z 1000000000); [discriminate|].
      injection Hid as ->. auto. }
    destruct Hgid as [Hgid Hbig]. destruct (find_gift_type_found _ _ _ Hfind) as [_ Hsame].
    repeat split; try assumption; rewrite Hr; reflexivity.
Qed.

(** X19: a gift type that [check_gift_availability] reports available
    is in the list that [get_available_resale_gifts] builds from the
    same answer of the platform, with its id and with the amount
    reported as "total_found". *)
Theorem available_type_is_among_the_resale_gifts (w : World)
    (gifts : option (list BaseGift)) (user_id : Z) (gift_id : GiftIdField) (st : St) :
  let r := fst (check_gift_availability w gifts user_id gift_id st) in
  available r = true ->
  exists id title,
    gift_id = GidInt id
    /\ In (Some id, title, total_found r)
         (fst (get_available_resale_gifts w gifts user_id st)).
Proof.
  cbv zeta. intros Hav.
  destruct (check_gift_availability_cases w gifts user_id gift_id st)
    as [(Hno & _)|(id & available_gifts & gift & Hid & Hen & Hact & Hme & Hg
                   & Hfind & Hamount & Hpos & _)]; [congruence|].
  subst gifts. exists id, (title_or "No Title" gift). split.
  { unfold validate_gift_id in Hid. destruct gift_id as [| |z]; try discriminate.
    destruct (z <? 1000000000); [discriminate|]. injection Hid as ->. reflexivity. }
  unfold get_available_resale_gifts. unfold bind at 1. unfold is_userbot_active at 1.
  rewrite Hact. cbn [negb]. unfold bind at 1. unfold get_valid_config, load_config.
  rewrite Hen. cbn [negb]. unfold bind at 1. rewrite get_userbot_client_eq, Hact, Hme.
  cbn [negb]. unfold ret. cbn [fst].
  destruct (find_gift_type_found _ _ _ Hfind) as [Hin Hsame].
  apply (resale_entries_In _ gift); [exact Hin|].
  unfold resale_entry. rewrite Hamount, Hsame.
  destruct (Z.eqb_spec (total_found (fst (check_gift_availability w
                                            (Some available_gifts) user_id gift_id st))) 0);
    [lia|].
  rewrite Z.gtb_ltb.
  destruct (Z.ltb_spec 0 (total_found (fst (check_gift_availability w
                                              (Some available_gifts) user_id gift_id st))));
    [reflexivity|lia].
Qed.

Lemma available_type_is_among_the_resale_gifts_witness :
  exists id title,
    GidInt 5000000000 = GidInt id
    /\ In (Some id, title,
           total_found (fst (check_gift_availability (Examples.still_world 900)
                               GiftTypeExamples.catalogue Examples.owner
                               (GidInt 5000000000)
                               (Examples.state_of (Examples.config_of [] 500) []))))
         (fst (get_available_resale_gifts (Examples.still_world 900)
                 GiftTypeExamples.catalogue Examples.owner
                 (Examples.state_of (Examples.config_of [] 500) []))).
Proof.
  apply (available_type_is_among_the_resale_gifts (Examples.still_world 900)
           GiftTypeExamples.catalogue Examples.owner (GidInt 5000000000)
           (Examples.state_of (Examples.config_of [] 500) [])).
  reflexivity.
Defined.

(** ** Target management *)

Lemma py_index_spec (len : nat) (index : Z) :
  match py_index len index with
  | Some i => (i < len)%nat
              /\ Z.of_nat i = (if 0 <=? index then index else Z.of_nat len + index)
              /\ - Z.of_nat len <= index < Z.of_nat len
  | None => Z.of_nat len <= index \/ index < - Z.of_nat len
  end.
Proof.
  unfold py_index. destruct (Z.leb_spec 0 index).
  - destruct (Z.ltb_spec index (Z.of_nat len)); [|lia]. repeat split; lia.
  - destruct (Z.leb_spec (- Z.of_nat len) index); [|lia]. repeat split; lia.
Qed.

Lemma remove_at_length (i : nat) (l : list Target) :
  (i < length l)%nat -> S (length (remove_at i l)) = length l.
Proof.
  revert i. induction l as [|t l IH]; intros i Hi; simpl in *; [lia|].
  destruct i as [|j]; simpl; [reflexivity|]. rewrite IH by lia. reflexivity.
Qed.

Lemma remove_at_before (i j : nat) (l : list Target) :
  (j < i)%nat -> nth_error (remove_at i l) j = nth_error l j.
Proof.
  revert i j. induction l as [|t l IH]; intros i j Hj; [destruct i; reflexivity|].
  destruct i as [|i]; [lia|]. destruct j as [|j]; simpl; [reflexivity|].
  apply IH. lia.
Qed.

Lemma remove_at_after (i j : nat) (l : list Target) :
  (i <= j)%nat -> nth_error (remove_at i l) j = nth_error l (S j).
Proof.
  revert i j. induction l as [|t l IH]; intros i j Hj.
  - destruct i, j; reflexivity.
  - destruct i as [|i]; [reflexivity|]. destruct j as [|j]; [lia|]. simpl.
    apply IH. lia.
Qed.

Lemma remove_at_last (l : list Target) (t : Target) : remove_at (length l) (l ++ [t]) = l.
Proof. induction l as [|h l IH]; simpl; [reflexivity|]. rewrite IH. reflexivity. Qed.

Lemma set_TARGETS_same (c : Config) : set_TARGETS (TARGETS c) c = c.
Proof. destruct c. reflexivity. Qed.

Lemma remove_target_eq (config : Config) (index : Z) (save : bool) (st : St) :
  remove_target config index save st =
  match py_index (length (TARGETS config)) index with
  | Some i =>
      let config' := set_TARGETS (remove_at i (TARGETS config)) config in
      (Some config', if save then snd (save_config config' st) else st)
  | None => (None, st)
  end.
Proof.
  unfold remove_target. pose proof (py_index_spec (length (TARGETS config)) index) as H.
  rewrite Z.geb_leb.
  destruct (Z.leb_spec (Z.of_nat (length (TARGETS config))) index) as [Hge|Hlt].
  - destruct (py_index (length (TARGETS config)) index); [lia|reflexivity].
  - destruct (py_index (length (TARGETS config)) index); [|reflexivity].
    destruct save; reflexivity.
Qed.

(** X20: [remove_target] refuses an index at or beyond the length, or
    more than the length below zero, and then saves nothing; otherwise
    it removes exactly one target, the one at the index, a negative
    index counting from the end: the targets before it keep their
    places, those after it move up by one, and nothing else of the
    configuration changes. *)
Theorem removing_a_target_keeps_the_others (config : Config) (index : Z) (save : bool)
    (st : St) :
  let r := remove_target config index save st in
  let targets := TARGETS config in
  match fst r with
  | None =>
      (Z.of_nat (length targets) <= index \/ index < - Z.of_nat (length targets))
      /\ snd r = st
  | Some config' =>
      exists i,
        Z.of_nat i = (if 0 <=? index then index else Z.of_nat (length targets) + index)
        /\ (i < length targets)%nat
        /\ S (length (TARGETS config')) = length targets
        /\ (forall j, (j < i)%nat -> nth_error (TARGETS config') j = nth_error targets j)
        /\ (forall j, (i <= j)%nat ->
              nth_error (TARGETS config') j = nth_error targets (S j))
        /\ set_TARGETS targets config' = config
        /\ disk (snd r) = (if save then config' else disk st)
  end.
Proof.
  cbv zeta. rewrite remove_target_eq.
  pose proof (py_index_spec (length (TARGETS config)) index) as H.
  destruct (py_index (length (TARGETS config)) index) as [i|]; cbn [fst snd].
  - destruct H as (Hi & Hz & _). exists i. cbn [TARGETS set_TARGETS].
    split; [exact Hz|]. split; [exact Hi|]. split; [apply remove_at_length, Hi|].
    split; [intros j Hj; apply remove_at_before, Hj|].
    split; [intros j Hj; apply remove_at_after, Hj|].
    split; [destruct config; reflexivity|]. destruct save; reflexivity.
  - auto.
Qed.

(** X21: [add_target] appends the new target, enabled, behind the
    targets there are, which keep their places; removing the target at
    the old length, or at index -1, gives the configuration back. *)
Theorem added_target_is_last_and_can_be_removed (config : Config) (gift_id : GiftIdField)
    (gift_name : string) (max_price : Z) (save : bool) (st : St) :
  let r := add_target config gift_id gift_name max_price save st in
  let n := length (TARGETS config) in
  nth_error (TARGETS (fst r)) n = Some (mkTarget gift_id gift_name max_price true)
  /\ length (TARGETS (fst r)) = S n
  /\ (forall j, (j < n)%nat -> nth_error (TARGETS (fst r)) j = nth_error (TARGETS config) j)
  /\ disk (snd r) = (if save then fst r else disk st)
  /\ fst (remove_target (fst r) (Z.of_nat n) false (snd r)) = Some config
  /\ fst (remove_target (fst r) (-1) false (snd r)) = Some config.
Proof.
  cbv zeta.
  assert (Hfst : fst (add_target config gift_id gift_name max_price save st)
                 = set_TARGETS (TARGETS config ++ [mkTarget gift_id gift_name max_price true])
                     config).
  { unfold add_target. destruct save; reflexivity. }
  assert (Hsnd : disk (snd (add_target config gift_id gift_name max_price save st))
                 = if save
                   then set_TARGETS
                          (TARGETS config ++ [mkTarget gift_id gift_name max_price true])
                          config
                   else disk st).
  { unfold add_target. destruct save; reflexivity. }
  rewrite Hfst, Hsnd. cbn [TARGETS set_TARGETS].
  split; [rewrite nth_error_app2 by lia; rewrite Nat.sub_diag; reflexivity|].
  split; [rewrite List.length_app; simpl; lia|].
  split; [intros j Hj; apply nth_error_app1, Hj|]. split; [reflexivity|].
  assert (Hrem : forall index s,
            py_index (S (length (TARGETS config))) index = Some (length (TARGETS config)) ->
            fst (remove_target
                   (set_TARGETS (TARGETS config ++ [mkTarget gift_id gift_name max_price true])
                      config) index false s) = Some config).
  { intros index s Hidx. rewrite remove_target_eq. cbn [TARGETS set_TARGETS].
    rewrite List.length_app. cbn [length]. rewrite Nat.add_1_r, Hidx. cbn [fst].
    rewrite remove_at_last. destruct config; reflexivity. }
  split; apply Hrem; unfold py_index.
  - destruct (Z.leb_spec 0 (Z.of_nat (length (TARGETS config)))); [|lia].
    destruct (Z.ltb_spec (Z.of_nat (length (TARGETS config)))
                (Z.of_nat (S (length (TARGETS config))))); [|lia].
    rewrite Nat2Z.id. reflexivity.
  - destruct (Z.leb_spec 0 (-1)); [lia|].
    destruct (Z.leb_spec (- Z.of_nat (S (length (TARGETS config)))) (-1)); [|lia].
    f_equal. lia.
Qed.




Lemma change_at_same (i : nat) (f : Target -> Target) (l : list Target) (t : Target) :
  nth_error l i = Some t -> nth_error (change_at i f l) i = Some (f t).
Proof.
  revert i. induction l as [|h l IH]; intros i; [destruct i; discriminate|].
  destruct i as [|i]; simpl; [intros [= ->]; reflexivity|apply IH].
Qed.

Lemma change_at_other (i j : nat) (f : Target -> Target) (l : list Target) :
  i <> j -> nth_error (change_at i f l) j = nth_error l j.
Proof.
  revert i j. induction l as [|h l IH]; intros i j Hij; [destruct i; reflexivity|].
  destruct i as [|i], j as [|j]; simpl; try reflexivity; [contradiction|].
  apply IH. congruence.
Qed.

Lemma change_at_fix (i : nat) (f : Target -> Target) (l : list Target) :
  (forall t, nth_error l i = Some t -> f t = t) -> change_at i f l = l.
Proof.
  revert i. induction l as [|h l IH]; intros i Hf; [destruct i; reflexivity|].
  destruct i as [|i]; simpl.
  - rewrite (Hf h eq_refl). reflexivity.
  - rewrite IH; [reflexivity|]. intros t Ht. apply Hf. exact Ht.
Qed.


Lemma update_target_eq (config : Config) (index : Z) (gift_id : option GiftIdField)
    (max_price : option Z) (enabled : option bool) (save : bool) (st : St) :
  update_target config index gift_id max_price enabled save st =
  match py_index (length (TARGETS config)) index with
  | Some i =>
      let config' :=
        set_TARGETS (change_at i (apply_update gift_id max_price enabled) (TARGETS config))
          config in
      (Some config', if save then snd (save_config config' st) else st)
  | None => (None, st)
  end.
Proof.
  unfold update_target. pose proof (py_index_spec (length (TARGETS config)) index) as H.
  rewrite Z.geb_leb.
  destruct (Z.leb_spec (Z.of_nat (length (TARGETS config))) index) as [Hge|Hlt].
  - destruct (py_index (length (TARGETS config)) index); [lia|reflexivity].
  - destruct (py_index (length (TARGETS config)) index); [|reflexivity].
    destruct save; reflexivity.
Qed.



(** X23: [update_target] changes the target at the index and no other:
    of that target only the fields that are passed, never the name; a
    call that passes none leaves every target as it is; and an index
    outside the list is refused with nothing saved. *)
Theorem update_changes_one_target_and_the_fields_passed (config : Config) (index : Z)
    (gift_id : option GiftIdField) (max_price : option Z) (enabled : option bool)
    (save : bool) (st : St) :
  let r := update_target config index gift_id max_price enabled save st in
  let n := Z.of_nat (length (TARGETS config)) in
  match fst r with
  | None => (n <= index \/ index < - n) /\ snd r = st
  | Some config' =>
      exists i,
        Z.of_nat i = (if 0 <=? index then index else n + index)
        /\ (forall j, j <> i -> nth_error (TARGETS config') j = nth_error (TARGETS config) j)
        /\ (exists t,
              nth_error (TARGETS config) i = Some t
              /\ nth_error (TARGETS config') i
                 = Some (mkTarget (default (GIFT_ID t) gift_id) (GIFT_NAME t)
                           (default (MAX_PRICE t) max_price)
                           (default (ENABLED t) enabled)))
        /\ (gift_id = None -> max_price = None -> enabled = None -> config' = config)
        /\ disk (snd r) = (if save then config' else disk st)
  end.
Proof.
  cbv zeta. rewrite update_target_eq.
  pose proof (py_index_spec (length (TARGETS config)) index) as H.
  destruct (py_index (length (TARGETS config)) index) as [i|]; cbn [fst snd]; [|auto].
  destruct H as (Hi & Hz & _). exists i. cbn [TARGETS set_TARGETS].
  split; [exact Hz|]. split; [intros j Hj; apply change_at_other; congruence|].
  destruct (nth_error (TARGETS config) i) as [t|] eqn:Hnth;
    [|apply nth_error_None in Hnth; lia].
  split.
  { exists t. split; [reflexivity|]. rewrite (change_at_same i _ _ t Hnth).
    unfold apply_update. destruct gift_id, max_price, enabled; reflexivity. }
  split; [|destruct save; reflexivity].
  intros -> -> ->. rewrite change_at_fix; [apply set_TARGETS_same|].
  intros t' _. destruct t'; reflexivity.
Qed.

(** ** Workers and the main switch *)



Lemma supervisor_live_step (s : Supervisor.Sup) (e : Supervisor.Step) :
  Supervisor.pending s = Supervisor._running_tasks s
  /\ (forall t, t ∈ Supervisor.pending s ->
        Supervisor.next_task s = S (S t) \/ Supervisor.next_task s = S t) ->
  Supervisor.pending (Supervisor.step s e) = Supervisor._running_tasks (Supervisor.step s e)
  /\ (forall t, t ∈ Supervisor.pending (Supervisor.step s e) ->
        Supervisor.next_task (Supervisor.step s e) = S (S t)
        \/ Supervisor.next_task (Supervisor.step s e) = S t).
Proof.
  intros [Heq Hlast].
  assert (Hstop : Supervisor.pending (Supervisor.stop_workers s) = ∅
                  /\ Supervisor._running_tasks (Supervisor.stop_workers s) = ∅
                  /\ Supervisor.next_task (Supervisor.stop_workers s)
                     = Supervisor.next_task s).
  { unfold Supervisor.stop_workers.
    destruct (Supervisor.are_workers_running s) eqn:Hr;
      cbn [Supervisor.pending Supervisor._running_tasks Supervisor.next_task].
    - rewrite Heq, difference_diag_L. auto.
    - rewrite Heq, (SupervisorFacts.not_running_empty s Hr). auto. }
  destruct e as [USER_ID config sess| |task]; cbn [Supervisor.step].
  - unfold Supervisor.start_workers.
    destruct (negb (ACTIVE config)); [auto|].
    destruct (negb (session_active sess USER_ID)); [auto|].
    destruct (negb (truthy_int (TARGET_USER_ID config))
              && negb (truthy_str (TARGET_CHAT_ID config))); [auto|].
    destruct (enabled_targets config) as [|target others]; [auto|]. cbn [snd].
    set (s1 := if Supervisor.are_workers_running s then Supervisor.stop_workers s else s).
    assert (H1 : Supervisor.pending s1 = ∅ /\ Supervisor._running_tasks s1 = ∅).
    { subst s1. destruct (Supervisor.are_workers_running s) eqn:Hr.
      - destruct Hstop as (Hp & Ht & _). auto.
      - rewrite Heq, (SupervisorFacts.not_running_empty s Hr). auto. }
    destruct H1 as [Hp Ht].
    cbn [Supervisor.pending Supervisor._running_tasks Supervisor.next_task].
    rewrite Hp, Ht. split; [reflexivity|].
    intros t Hin. apply elem_of_union in Hin as [Hin|Hin].
    + apply elem_of_union in Hin as [Hin|Hin]; [apply elem_of_empty in Hin as []|].
      apply elem_of_singleton in Hin as ->. left. reflexivity.
    + apply elem_of_singleton in Hin as ->. right. reflexivity.
  - destruct Hstop as (Hp & Ht & Hn). rewrite Hp, Ht. split; [reflexivity|].
    intros t Hin. apply elem_of_empty in Hin as [].
  - unfold Supervisor.task_ends.
    destruct (decide (task ∈ Supervisor.pending s)); [|auto].
    cbn [Supervisor.task_done_callback Supervisor.pending Supervisor._running_tasks
      Supervisor.next_task].
    rewrite Heq. split; [reflexivity|].
    intros t Hin. apply elem_of_difference in Hin as [Hin _]. apply Hlast.
    rewrite Heq. exact Hin.
Qed.

(** X25: whatever sequence of starts, stops and worker completions has
    happened, the tasks still alive are exactly the tracked ones, and
    they belong to the most recent start: a restart leaves no worker of
    an earlier start running beside the new pair, and a stop leaves
    none at all. *)
Theorem live_workers_are_the_tracked_ones (steps : list Supervisor.Step) :
  let s := Supervisor.run_steps steps in
  Supervisor.pending s = Supervisor._running_tasks s
  /\ (forall t, t ∈ Supervisor.pending s ->
        Supervisor.next_task s = S (S t) \/ Supervisor.next_task s = S t)
  /\ Supervisor.pending (Supervisor.stop_workers s) = ∅
  /\ (forall USER_ID config sess,
        fst (Supervisor.start_workers USER_ID config sess s) = true ->
        Supervisor.pending (snd (Supervisor.start_workers USER_ID config sess s))
        = {[Supervisor.next_task s; S (Supervisor.next_task s)]}).
Proof.
  cbv zeta.
  assert (Hinv : forall s,
            Supervisor.pending s = Supervisor._running_tasks s
            /\ (forall t, t ∈ Supervisor.pending s ->
                  Supervisor.next_task s = S (S t) \/ Supervisor.next_task s = S t) ->
            Supervisor.pending (fold_left Supervisor.step steps s)
            = Supervisor._running_tasks (fold_left Supervisor.step steps s)
            /\ (forall t, t ∈ Supervisor.pending (fold_left Supervisor.step steps s) ->
                  Supervisor.next_task (fold_left Supervisor.step steps s) = S (S t)
                  \/ Supervisor.next_task (fold_left Supervisor.step steps s) = S t)).
  { induction steps as [|e steps IH]; intros s Hs; simpl; [exact Hs|].
    apply IH, supervisor_live_step, Hs. }
  assert (H0 : Supervisor.pending Supervisor.initial
               = Supervisor._running_tasks Supervisor.initial
               /\ (forall t, t ∈ Supervisor.pending Supervisor.initial ->
                     Supervisor.next_task Supervisor.initial = S (S t)
                     \/ Supervisor.next_task Supervisor.initial = S t)).
  { split; [reflexivity|]. intros t Hin. apply elem_of_empty in Hin as []. }
  specialize (Hinv Supervisor.initial H0). fold (Supervisor.run_steps steps) in Hinv.
  destruct Hinv as [Heq Hlast]. split; [exact Heq|]. split; [exact Hlast|].
  pose proof (supervisor_live_step _ Supervisor.CallStop (conj Heq Hlast)) as [Hstop _].
  cbn [Supervisor.step] in Hstop. split.
  - rewrite Hstop. apply SupervisorFacts.stop_workers_empty.
  - intros USER_ID config sess. unfold Supervisor.start_workers.
    destruct (negb (ACTIVE config)); [discriminate|].
    destruct (negb (session_active sess USER_ID)); [discriminate|].
    destruct (negb (truthy_int (TARGET_USER_ID config))
              && negb (truthy_str (TARGET_CHAT_ID config))); [discriminate|].
    destruct (enabled_targets config) as [|target others]; [discriminate|]. intros _. cbn [snd].
    destruct (Supervisor.are_workers_running (Supervisor.run_steps steps)) eqn:Hr;
      cbn [Supervisor.pending Supervisor.next_task].
    + rewrite Hstop, SupervisorFacts.stop_workers_empty.
      unfold Supervisor.stop_workers. rewrite Hr. cbn [Supervisor.next_task].
      rewrite (left_id_L ∅ (∪)). reflexivity.
    + rewrite Heq, (SupervisorFacts.not_running_empty _ Hr), (left_id_L ∅ (∪)).
      reflexivity.
Qed.


(** X27: [get_balance_from_config] changes nothing and reads back the
    value last written: what [refresh_balance] has just returned, and
    what [change_balance_userbot] has just returned. *)
Theorem cached_balance_reads_back_the_last_write (w : World) (user_id : option Z)
    (delta : Z) (st : St) :
  snd (get_balance_from_config st) = st
  /\ fst (get_balance_from_config (snd (refresh_balance w user_id st)))
     = fst (refresh_balance w user_id st)
  /\ fst (get_balance_from_config (snd (change_balance_userbot delta st)))
     = fst (change_balance_userbot delta st).
Proof.
  split; [reflexivity|]. split.
  - unfold get_balance_from_config, bind, load_config, ret. cbn [fst snd].
    destruct (refresh_balance_value w user_id st) as [-> ->]. reflexivity.
  - reflexivity.
Qed.
